(** * Horror Oracle: a shallow embedding of [horror.py]

    The backend aggregates two movie-metadata providers (OMDb, TMDb) and a
    language model.  Its four lookup functions ([get_movie_details],
    [get_recommendations_for_movie], [generate_interesting_fact],
    [get_recent_horror_releases]) and the two routes that call them
    ([/ask-oracle], [/recent-releases]) are embedded here as Rocq
    functions over an explicit [world] (configuration and upstream
    answers) and a small state-and-exception monad (upstream request log,
    clock reads, random draws). *)

From Stdlib Require Import ZArith Ascii String List Lia Permutation.
From stdpp Require Import base option list gmap strings pretty.

Local Open Scope Z_scope.

(** ** Python string primitives

    Python [str] values are embedded as Rocq strings, read as ASCII text:
    on that range [str.lower] maps A-Z to a-z, and the white space of
    [str.split()] and [str.strip()] is tab, line feed, vertical tab, form
    feed, carriage return, the separators 0x1c-0x1f and the blank.
    Outside that range Python knows more letters and more blanks (the
    Kelvin sign lowers to k, the no-break space separates words), so the
    statements about the text of a query assume [isascii] of it.
    [quote] and the splits at an ASCII separator work byte by byte and
    are exact on UTF-8 text as well. *)

Module Py.

Definition code (c : ascii) : N := N_of_ascii c.

(** [s.isascii()] *)
Fixpoint isascii (s : string) : bool :=
  match s with
  | EmptyString => true
  | String c s' => (code c <? 128)%N && isascii s'
  end.

Definition isspace (c : ascii) : bool :=
  let n := code c in
  ((9 <=? n) && (n <=? 13) || (28 <=? n) && (n <=? 31) || (n =? 32))%N.

Definition lower_char (c : ascii) : ascii :=
  let n := code c in
  if ((65 <=? n) && (n <=? 90))%N then ascii_of_N (n + 32) else c.

Fixpoint lower (s : string) : string :=
  match s with
  | EmptyString => EmptyString
  | String c s' => String (lower_char c) (lower s')
  end.

(** [s.startswith(p)] *)
Fixpoint startswith (p s : string) : bool :=
  match p, s with
  | EmptyString, _ => true
  | String a p', String b s' => if Ascii.eqb a b then startswith p' s' else false
  | String _ _, EmptyString => false
  end.

(** [sub in s] *)
Fixpoint contains (sub s : string) : bool :=
  startswith sub s ||
  match s with
  | EmptyString => false
  | String _ s' => contains sub s'
  end.

(** [s[n:]] for [0 <= n] *)
Fixpoint drop (n : nat) (s : string) : string :=
  match n, s with
  | O, _ => s
  | S n', String _ s' => drop n' s'
  | S _, EmptyString => EmptyString
  end.

Fixpoint lstrip (s : string) : string :=
  match s with
  | String c s' => if isspace c then lstrip s' else s
  | EmptyString => EmptyString
  end.

Fixpoint rstrip (s : string) : string :=
  match s with
  | EmptyString => EmptyString
  | String c s' =>
      match rstrip s' with
      | EmptyString => if isspace c then EmptyString else String c EmptyString
      | t => String c t
      end
  end.

Definition strip (s : string) : string := rstrip (lstrip s).

(** [s.split()]: maximal runs of non-blank characters. *)
Fixpoint split_ws_go (cur : string) (s : string) : list string :=
  match s with
  | EmptyString => match cur with EmptyString => [] | _ => [cur] end
  | String c s' =>
      if isspace c
      then match cur with
           | EmptyString => split_ws_go EmptyString s'
           | _ => cur :: split_ws_go EmptyString s'
           end
      else split_ws_go (cur +:+ String c EmptyString) s'
  end.

Definition split_ws (s : string) : list string := split_ws_go EmptyString s.

(** [s.split(sep)] for a non-empty separator: the pieces between the
    non-overlapping occurrences of [sep], scanned left to right.  The
    recursion is on a fuel that bounds the remaining length. *)
Fixpoint split_go (fuel : nat) (sep cur s : string) : list string :=
  match fuel with
  | O => [cur +:+ s]
  | S fuel' =>
      match s with
      | EmptyString => [cur]
      | String c s' =>
          if startswith sep s
          then cur :: split_go fuel' sep EmptyString (drop (String.length sep) s)
          else split_go fuel' sep (cur +:+ String c EmptyString) s'
      end
  end.

Definition split (sep s : string) : list string :=
  split_go (S (String.length s)) sep EmptyString s.

(** Truth value of a string or of an optional (possibly [None]) one. *)
Definition truthy_str (s : string) : bool :=
  match s with EmptyString => false | _ => true end.

Definition truthy (o : option string) : bool :=
  match o with Some s => truthy_str s | None => false end.

(** [urllib.parse.quote] with its default safe set: letters, digits and
    [_.-~/] stay, every other byte becomes [%XX] in upper-case hex. *)
Definition hex_digit (n : N) : ascii :=
  if (n <? 10)%N then ascii_of_N (48 + n) else ascii_of_N (55 + n).

Definition unreserved (c : ascii) : bool :=
  let n := code c in
  ((48 <=? n) && (n <=? 57) || (65 <=? n) && (n <=? 90) ||
   (97 <=? n) && (n <=? 122) ||
   (n =? 95) || (n =? 46) || (n =? 45) || (n =? 126) || (n =? 47))%N.

Fixpoint quote (s : string) : string :=
  match s with
  | EmptyString => EmptyString
  | String c s' =>
      if unreserved c then String c (quote s')
      else String "%" (String (hex_digit (code c / 16))
                      (String (hex_digit (code c mod 16)) (quote s')))
  end.

(** [l[:k]] for a possibly negative bound [k]. *)
Definition slice_to {A} (k : Z) (l : list A) : list A :=
  if 0 <=? k then take (Z.to_nat k) l
  else take (length l - Z.to_nat (- k)) l.

End Py.

(** ** Upstream data, as the JSON the handlers read

    A field read with [.get] is an [option]: [None] stands for a key
    that is missing (or null).  The id of a search hit is read with
    [["id"]]: there [None] is the missing key, a [KeyError]. *)

Record tmdb_movie := TmdbMovie {
  m_id : option Z;
  m_title : option string;
  m_release_date : option string;
  m_overview : option string;
  m_poster_path : option string;
  m_genre_ids : option (list Z) }.

Record tmdb_page := TmdbPage { results : option (list tmdb_movie) }.

Record genre := Genre { g_id : Z; g_name : string }.

Record genre_data := GenreData { genres : option (list genre) }.

Record omdb_data := OmdbData {
  o_Response : option string;
  o_Title : option string;
  o_Year : option string;
  o_Director : option string;
  o_Plot : option string;
  o_Poster : option string;
  o_imdbID : option string;
  o_Genre : option string }.

(** [external_ids] of a per-movie details answer; its [imdb_id] may be
    missing ([None]), null ([Some None]) or a string. *)
Record external_ids := ExternalIds { e_imdb_id : option (option string) }.

Record tmdb_details := TmdbDetails { d_external_ids : option external_ids }.

(** ** Records the handlers build *)

(** The dictionary returned by [get_movie_details].  The TMDb branch has
    no ["director"] key at all: [md_director = None]. *)
Record movie_details := MovieDetails {
  md_title : option string;
  md_year : option string;
  md_director : option (option string);
  md_plot : option string;
  md_poster : option string;
  md_imdb_id : option string;
  md_genres : list string }.

(** One dictionary of the recommendation list.  The fallback stage writes
    no ["imdb_id"] key: [r_imdb_id = None]; [Some None] is a key holding
    Python's [None]. *)
Record recommendation := Recommendation {
  r_title : option string;
  r_year : string;
  r_plot : option string;
  r_poster_url : option string;
  r_genres : list string;
  r_imdb_id : option (option string);
  r_amazon_link : string;
  r_timestamp : string }.

Record release_entry := ReleaseEntry {
  re_title : option string;
  re_release_date : option string;
  re_poster : option string }.

Global Instance recommendation_eq_dec : EqDecision recommendation.
Proof. solve_decision. Defined.

Global Instance release_entry_eq_dec : EqDecision release_entry.
Proof. solve_decision. Defined.

(** ** Effects: requests, exceptions, state *)

Inductive request :=
  | OmdbByTitle (title : string)
  | TmdbSearch (query : string)
  | TmdbRecommendations (movie_id : Z)
  | TmdbSimilar (movie_id : Z)
  | TmdbGenreList
  | TmdbMovieDetails (movie_id : option Z)
  | TmdbDiscoverPopular
  | TmdbDiscoverRecent (release_date_gte : Z)
  | ChatCompletion (model system user : string) (max_tokens : Z).

Global Instance request_eq_dec : EqDecision request.
Proof. solve_decision. Defined.

Inductive exn :=
  | Exception (msg : string)
  | TypeError
  | KeyError
  | IndexError
  | AttributeError
  | ApiError (msg : string).

(** Answer of the chat-completions call: it raises, or it carries the
    [message.content] of each choice. *)
Inductive llm_result :=
  | LlmRaises (e : exn)
  | LlmChoices (contents : list (option string)).

(** Configuration and everything outside the process.  An upstream
    answers a request the same way throughout a run.  Dates are
    proleptic Gregorian ordinals ([date.toordinal()]); [clock k] is the
    value of [int(time.time())] at its [k]-th read and [rand_raw k] the
    [k]-th raw draw of the generator, which [randbelow n] reduces into
    [0 .. n-1]. *)
Record world := World {
  OPENAI_API_KEY : option string;
  OMDB_API_KEY : option string;
  TMDB_API_KEY : option string;
  omdb : string -> omdb_data;
  tmdb_search : string -> tmdb_page;
  tmdb_recommendations : Z -> tmdb_page;
  tmdb_similar : Z -> tmdb_page;
  tmdb_genre_list : genre_data;
  tmdb_movie_by_id : option Z -> tmdb_details;
  tmdb_discover_popular : tmdb_page;
  tmdb_discover_recent : Z -> tmdb_page;
  chat_completion : string -> string -> string -> Z -> llm_result;
  today : Z;
  clock : nat -> Z;
  rand_raw : nat -> nat }.

Record state := State {
  log : list request;
  clock_reads : nat;
  rand_reads : nat }.

Definition init : state := State [] 0 0.

Inductive outcome (A : Type) :=
  | Ok (a : A)
  | Raise (e : exn).
Arguments Ok {A} a.
Arguments Raise {A} e.

Definition M (A : Type) : Type := state -> outcome A * state.

Definition ret {A} (a : A) : M A := fun s => (Ok a, s).

Definition raise {A} (e : exn) : M A := fun s => (Raise e, s).

Definition bind {A B} (m : M A) (k : A -> M B) : M B :=
  fun s => match m s with
           | (Ok a, s') => k a s'
           | (Raise e, s') => (Raise e, s')
           end.

(** [try: m  except Exception as e: h e] *)
Definition try_except {A} (m : M A) (h : exn -> M A) : M A :=
  fun s => match m s with
           | (Ok a, s') => (Ok a, s')
           | (Raise e, s') => h e s'
           end.

Notation "x <- m ;; k" := (bind m (fun x => k))
  (at level 20, m at level 99, k at level 200, only parsing).

(** A request that the upstream answers with [a]: it is appended to the
    log.  The world records answers only; a call that raises instead (no
    network, a body that is not JSON) is outside it, and what is stated
    about a request below is stated for the answer it got. *)
Definition fetch {A} (r : request) (a : A) : M A :=
  fun s => (Ok a, State (log s ++ [r]) (clock_reads s) (rand_reads s)).

(** [quote(t)] raises [TypeError] on [None]. *)
Definition quote_opt (t : option string) : M string :=
  match t with
  | Some s => ret (Py.quote s)
  | None => raise TypeError
  end.

Definition truthy_list {A} (o : option (list A)) : bool :=
  match o with Some (_ :: _) => true | _ => false end.

(** An optional value inside an f-string. *)
Definition fmt (o : option string) : string := default "None" o.

(** [rd.split("-")[0] if rd else "N/A"] *)
Definition year_of (release_date : option string) : string :=
  match release_date with
  | Some rd => if Py.truthy_str rd then hd EmptyString (Py.split "-" rd) else "N/A"
  | None => "N/A"
  end.

(** [f"https://image.tmdb.org/t/p/w500{p}" if p else None] *)
Definition poster_of (poster_path : option string) : option string :=
  match poster_path with
  | Some p => if Py.truthy_str p then Some ("https://image.tmdb.org/t/p/w500" +:+ p) else None
  | None => None
  end.

(** [{g['id']: g['name'] for g in genre_data.get('genres', [])}]: a later
    entry overwrites an earlier one with the same id. *)
Definition genre_map_of (gd : genre_data) : gmap Z string :=
  foldl (fun m g => <[g_id g := g_name g]> m) ∅ (default [] (genres gd)).

(** [[genre_map.get(g_id, "Unknown") for g_id in ids]] *)
Definition genre_names (genre_map : gmap Z string) (ids : list Z) : list string :=
  map (fun g_id => default "Unknown" (genre_map !! g_id)) ids.

(** [movie_details.get("external_ids", {}).get("imdb_id", <empty string>)] *)
Definition imdb_id_of (d : tmdb_details) : option string :=
  match d_external_ids d with
  | Some e => default (Some EmptyString) (e_imdb_id e)
  | None => Some EmptyString
  end.

Definition amazon_link_of (quoted_title : string) : string :=
  "https://www.amazon.com/s?k=" +:+ quoted_title +:+ "+movie".

Definition ebay_link_of (quoted_title : string) : string :=
  "https://www.ebay.com/sch/i.html?_nkw=" +:+ quoted_title +:+ "+movie".

(** [x[i], x[j] = x[j], x[i]] *)
Definition swap {A} (i j : nat) (x : list A) : list A :=
  match x !! i, x !! j with
  | Some a, Some b => <[j:=a]> (<[i:=b]> x)
  | _, _ => x
  end.

Definition keywords : list string := ["movie"; "film"; "watch"; "see"; "about"].

Definition prefixes : list string :=
  ["tell me about"; "what is"; "do you know"; "have you seen"].

(** The [for prefix in ...: if ...: ...; break] loop of [ask_oracle]. *)
Fixpoint potential_title_loop (query : string) (ps : list string) : string :=
  match ps with
  | [] => query
  | prefix :: rest =>
      if Py.startswith prefix (Py.lower query)
      then Py.strip (Py.drop (String.length prefix) query)
      else potential_title_loop query rest
  end.

Definition fact_unconfigured : string :=
  "The Oracle knows many secrets about this film, but cannot reveal them right now...".

Definition fact_failed : string :=
  "The Oracle sees dark secrets about this film, but they are shrouded in mystery...".

Definition fact_system_prompt : string :=
  "You are a horror movie expert. Provide ONE interesting, lesser-known fact about the specified movie. Keep it to 1-2 sentences maximum.".

(** The double-quote character, for the literals that contain it. *)
Definition dq : string := String (ascii_of_N 34) EmptyString.

Definition HORROR_ORACLE_PROMPT : string :=
"You are the Horror Oracle, a passionate and darkly enthusiastic horror movie expert who genuinely gets excited talking about scary films.

Your personality traits:
- You're deeply passionate about horror, almost obsessively so
- You use colorful, evocative language with horror-themed metaphors
- You get genuinely excited when discussing classic horror or hidden gems

Your knowledge base:
- You know about classic horror movies, modern films, and obscure or cult classics.
- You have access to real-time movie release information (from TMDB).

Instructions:
- When asked a question, respond in character as the Horror Oracle.
- If you can't find a movie, state that your " +:+ dq +:+ "powers are failing" +:+ dq +:+ " but suggest a few other, similar movies to check out.
- For specific movie queries, use the provided movie data.
- For general questions (e.g., " +:+ dq +:+ "What is your favorite horror film?" +:+ dq +:+ "), generate a fun, in-character response.
- Do not make up movie details. If you can't find a detail, be honest about it.
- Use emojis and a playful, spooky tone.
".

Record movie_payload := MoviePayload {
  mp_movie_title : option string;
  mp_summary : string;
  mp_interesting_fact : string;
  mp_recommendations : list recommendation;
  mp_amazon_link : string;
  mp_ebay_link : string;
  mp_imdb_id : option string;
  mp_year : option string;
  mp_director : option string;
  mp_poster : option string;
  mp_request_id : string;
  mp_timestamp : Z }.

(** The text of an error body: a literal, or [str(e)]. *)
Inductive error_text :=
  | Literal (s : string)
  | StrOf (e : exn).

Inductive http_response :=
  | BadRequest (error : string)
  | ServerError (error : error_text)
  | MovieAnswer (p : movie_payload)
  | GeneralAnswer (summary request_id : string) (timestamp : Z)
  | Releases (releases : list release_entry) (timestamp : Z).

(** ** The functions of [horror.py] *)

Section Handlers.

Variable w : world.

(** [int(time.time())] *)
Definition time_time : M Z :=
  fun s => (Ok (clock w (clock_reads s)),
            State (log s) (S (clock_reads s)) (rand_reads s)).

(** [random._randbelow(n)] for [0 < n] *)
Definition randbelow (n : nat) : M nat :=
  fun s => (Ok (rand_raw w (rand_reads s) `mod` n)%nat,
            State (log s) (clock_reads s) (S (rand_reads s))).

(** [random.randint(a, b)] *)
Definition randint (a b : Z) : M Z :=
  k <- randbelow (Z.to_nat (b - a + 1)) ;;
  ret (a + Z.of_nat k).

(** [random.shuffle(x)]:
    [for i in reversed(range(1, len(x))): j = randbelow(i + 1); swap]. *)
Fixpoint shuffle_loop {A} (i : nat) (x : list A) : M (list A) :=
  match i with
  | O => ret x
  | S i' => j <- randbelow (S i) ;; shuffle_loop i' (swap i j x)
  end.

Definition shuffle {A} (x : list A) : M (list A) :=
  shuffle_loop (length x - 1) x.

(** The chat-completions call, then [response.choices[0].message.content]. *)
Definition chat (model system user : string) (max_tokens : Z) : M (list (option string)) :=
  fun s =>
    let s' := State (log s ++ [ChatCompletion model system user max_tokens])
                    (clock_reads s) (rand_reads s) in
    match chat_completion w model system user max_tokens with
    | LlmRaises e => (Raise e, s')
    | LlmChoices cs => (Ok cs, s')
    end.

Definition first_content (choices : list (option string)) : M string :=
  match choices with
  | [] => raise IndexError
  | None :: _ => raise AttributeError
  | Some c :: _ => ret (Py.strip c)
  end.

(** *** [get_movie_details] *)
Definition get_movie_details (title : string) : M (option movie_details) :=
  if negb (Py.truthy (OMDB_API_KEY w)) || negb (Py.truthy (TMDB_API_KEY w))
  then raise (Exception "OMDb or TMDb API key is not set.")
  else
    omdb_data <- fetch (OmdbByTitle (Py.quote title)) (omdb w (Py.quote title)) ;;
    if bool_decide (o_Response omdb_data = Some "True")
    then ret (Some {| md_title := o_Title omdb_data;
                      md_year := o_Year omdb_data;
                      md_director := Some (o_Director omdb_data);
                      md_plot := o_Plot omdb_data;
                      md_poster := o_Poster omdb_data;
                      md_imdb_id := o_imdbID omdb_data;
                      md_genres := Py.split ", " (default EmptyString (o_Genre omdb_data)) |})
    else
      tmdb_data <- fetch (TmdbSearch (Py.quote title)) (tmdb_search w (Py.quote title)) ;;
      match results tmdb_data with
      | Some (result :: _) =>
          genres <- match m_genre_ids result with
                    | Some ((_ :: _) as ids) =>
                        genre_data <- fetch TmdbGenreList (tmdb_genre_list w) ;;
                        ret (genre_names (genre_map_of genre_data) ids)
                    | _ => ret []
                    end ;;
          ret (Some {| md_title := m_title result;
                       md_year := Some (year_of (m_release_date result));
                       md_director := None;
                       md_plot := m_overview result;
                       md_poster := poster_of (m_poster_path result);
                       md_imdb_id := None;
                       md_genres := genres |})
      | _ => ret None
      end.

(** *** [get_recent_horror_releases] *)
Definition release_of (movie : tmdb_movie) : release_entry :=
  {| re_title := m_title movie;
     re_release_date := m_release_date movie;
     re_poster := poster_of (m_poster_path movie) |}.

Definition get_recent_horror_releases (limit : Z) : M (list release_entry) :=
  if negb (Py.truthy (TMDB_API_KEY w))
  then raise (Exception "TMDb API key is not set.")
  else
    random_param <- randint 10000 99999 ;;
    let one_month_ago := today w - 30 in
    data <- fetch (TmdbDiscoverRecent one_month_ago) (tmdb_discover_recent w one_month_ago) ;;
    match results data with
    | Some ((_ :: _) as rs) => ret (map release_of (Py.slice_to limit rs))
    | _ => ret []
    end.

(** *** [get_recommendations_for_movie] *)

(** Lines 159-170: the recommendations list, or the similar list. *)
Definition fetch_candidates (movie_id : Z) : M tmdb_page :=
  rec_data <- fetch (TmdbRecommendations movie_id) (tmdb_recommendations w movie_id) ;;
  if negb (truthy_list (results rec_data))
     || (length (default [] (results rec_data)) <? 3)%nat
  then
    similar_data <- fetch (TmdbSimilar movie_id) (tmdb_similar w movie_id) ;;
    if truthy_list (results similar_data) then ret similar_data else ret rec_data
  else ret rec_data.

(** Lines 180-206: the loop over the candidates. *)
Fixpoint primary_loop (genre_map : gmap Z string) (movies : list tmdb_movie)
    (recommendations : list recommendation) : M (list recommendation) :=
  match movies with
  | [] => ret recommendations
  | movie :: rest =>
      match m_genre_ids movie with
      | Some ((_ :: _) as ids) =>
          let genres := genre_names genre_map ids in
          if bool_decide ("Horror" ∈ genres) || (length genres <=? 2)%nat
          then
            movie_details <- fetch (TmdbMovieDetails (m_id movie))
                                   (tmdb_movie_by_id w (m_id movie)) ;;
            let imdb_id := imdb_id_of movie_details in
            quoted <- quote_opt (m_title movie) ;;
            timestamp <- time_time ;;
            let recommendations' :=
              recommendations ++
              [ {| r_title := m_title movie;
                   r_year := year_of (m_release_date movie);
                   r_plot := m_overview movie;
                   r_poster_url := poster_of (m_poster_path movie);
                   r_genres := genres;
                   r_imdb_id := Some imdb_id;
                   r_amazon_link := amazon_link_of quoted;
                   r_timestamp := pretty timestamp |} ] in
            if (5 <=? length recommendations')%nat
            then ret recommendations'
            else primary_loop genre_map rest recommendations'
          else primary_loop genre_map rest recommendations
      | _ => primary_loop genre_map rest recommendations
      end
  end.

(** Lines 215-236: the loop over the popular movies. *)
Fixpoint fallback_loop (genre_map : gmap Z string) (movies : list tmdb_movie)
    (recommendations : list recommendation) : M (list recommendation) :=
  match movies with
  | [] => ret recommendations
  | movie :: rest =>
      if existsb (fun r => bool_decide (r_title r = m_title movie)) recommendations
      then fallback_loop genre_map rest recommendations
      else
        let genres := match m_genre_ids movie with
                      | Some ((_ :: _) as ids) => genre_names genre_map ids
                      | _ => []
                      end in
        quoted <- quote_opt (m_title movie) ;;
        timestamp <- time_time ;;
        let recommendations' :=
          recommendations ++
          [ {| r_title := m_title movie;
               r_year := year_of (m_release_date movie);
               r_plot := m_overview movie;
               r_poster_url := poster_of (m_poster_path movie);
               r_genres := genres;
               r_imdb_id := None;
               r_amazon_link := amazon_link_of quoted;
               r_timestamp := pretty timestamp |} ] in
        if (5 <=? length recommendations')%nat
        then ret recommendations'
        else fallback_loop genre_map rest recommendations'
  end.

(** Lines 178-206. *)
Definition primary_stage (genre_map : gmap Z string) (rec_data : tmdb_page)
    : M (list recommendation) :=
  match results rec_data with
  | Some ((_ :: _) as rs) => primary_loop genre_map (take 10 rs) []
  | _ => ret []
  end.

(** Lines 208-236. *)
Definition fallback_stage (genre_map : gmap Z string)
    (recommendations : list recommendation) : M (list recommendation) :=
  if (length recommendations <? 3)%nat
  then
    popular_data <- fetch TmdbDiscoverPopular (tmdb_discover_popular w) ;;
    match results popular_data with
    | Some ((_ :: _) as rs) => fallback_loop genre_map (take 5 rs) recommendations
    | _ => ret recommendations
    end
  else ret recommendations.

(** Lines 159-236: what is collected before the shuffle of line 239. *)
Definition gather (movie_id : Z) : M (list recommendation) :=
  rec_data <- fetch_candidates movie_id ;;
  genre_data <- fetch TmdbGenreList (tmdb_genre_list w) ;;
  let genre_map := genre_map_of genre_data in
  recommendations <- primary_stage genre_map rec_data ;;
  fallback_stage genre_map recommendations.

Definition get_recommendations_for_movie (movie_title : option string)
    : M (list recommendation) :=
  if negb (Py.truthy (TMDB_API_KEY w))
  then raise (Exception "TMDb API key is not set.")
  else
    random_param <- time_time ;;
    quoted <- quote_opt movie_title ;;
    search_data <- fetch (TmdbSearch quoted) (tmdb_search w quoted) ;;
    match results search_data with
    | Some (first :: _) =>
        match m_id first with
        | None => raise KeyError
        | Some movie_id =>
            recommendations <- gather movie_id ;;
            shuffled <- shuffle recommendations ;;
            ret (take 5 shuffled)
        end
    | _ => ret []
    end.

(** *** [generate_interesting_fact] *)
Definition fact_prompt (movie_title : option string) (seed : Z) : string :=
  "Provide one interesting, lesser-known fact about the horror movie '"
  +:+ fmt movie_title
  +:+ "'. Keep it to 1-2 sentences maximum. Make it different from previous facts you may have given. Seed: "
  +:+ pretty seed.

Definition generate_interesting_fact (movie_title : option string) : M string :=
  if negb (Py.truthy (OPENAI_API_KEY w))
  then ret fact_unconfigured
  else
    try_except
      (seed <- randint 1 1000 ;;
       choices <- chat "gpt-4-turbo-preview" fact_system_prompt
                       (fact_prompt movie_title seed) 100 ;;
       first_content choices)
      (fun e => ret fact_failed).

(** *** The [/ask-oracle] route *)
Definition summary_of (md : movie_details) : string :=
  "🎬 **" +:+ fmt (md_title md) +:+ "** (" +:+ fmt (md_year md) +:+ ")

Directed by " +:+ fmt (default None (md_director md)) +:+ "

" +:+ fmt (md_plot md).

(** Lines 301-317: the guess whether the query names a movie, and the
    lookup under [try]. *)
Definition lookup_movie (query : string) : M (option movie_details) :=
  try_except
    (let words := Py.split_ws query in
     if (length words <? 5)%nat
        || existsb (fun keyword => Py.contains keyword (Py.lower query)) keywords
     then get_movie_details (potential_title_loop query prefixes)
     else ret None)
    (fun e => ret None).

(** Lines 320-356: the answer about a movie. *)
Definition answer_movie (request_id : string) (md : movie_details) : M http_response :=
  let movie_title := md_title md in
  recommendations <- get_recommendations_for_movie movie_title ;;
  interesting_fact <- generate_interesting_fact movie_title ;;
  let summary := summary_of md in
  quoted <- quote_opt movie_title ;;
  quoted' <- quote_opt movie_title ;;
  timestamp <- time_time ;;
  ret (MovieAnswer
         {| mp_movie_title := movie_title;
            mp_summary := summary;
            mp_interesting_fact := interesting_fact;
            mp_recommendations := recommendations;
            mp_amazon_link := amazon_link_of quoted;
            mp_ebay_link := ebay_link_of quoted';
            mp_imdb_id := md_imdb_id md;
            mp_year := md_year md;
            mp_director := default (Some EmptyString) (md_director md);
            mp_poster := md_poster md;
            mp_request_id := request_id;
            mp_timestamp := timestamp |}).

(** Lines 357-384: the general responder. *)
Definition answer_general (request_id query : string) : M http_response :=
  if negb (Py.truthy (OPENAI_API_KEY w))
  then ret (ServerError (Literal "OpenAI API key is missing. The Oracle's powers are failing! 👻"))
  else
    try_except
      (choices <- chat "gpt-4-turbo-preview" HORROR_ORACLE_PROMPT query 300 ;;
       oracle_response <- first_content choices ;;
       timestamp <- time_time ;;
       ret (GeneralAnswer oracle_response request_id timestamp))
      (fun e => ret (ServerError (StrOf e))).

Definition ask_oracle (query : string) : M http_response :=
  if negb (Py.truthy_str query)
  then ret (BadRequest "Query is required")
  else
    now <- time_time ;;
    salt <- randint 1000 9999 ;;
    let request_id := pretty now +:+ "-" +:+ pretty salt in
    movie_details <- lookup_movie query ;;
    match movie_details with
    | Some md => answer_movie request_id md
    | None => answer_general request_id query
    end.

(** *** The [/recent-releases] route; [limit] is the parsed query
    argument, [None] when it is missing or not an integer. *)
Definition recent_releases (limit : option Z) : M http_response :=
  try_except
    (releases <- get_recent_horror_releases (default 5 limit) ;;
     timestamp <- time_time ;;
     ret (Releases releases timestamp))
    (fun e => ret (ServerError (StrOf e))).

End Handlers.

(** ** The [/price-compare] route *)

(** The dictionary of [get_price_comparison]. *)
Record price_data := PriceData {
  pd_buy : string;
  pd_rent : string;
  pd_stream : string }.

Inductive price_response :=
  | PriceBadRequest (error : string)
  | PriceServerError (error : error_text)
  | PriceAnswer (p : price_data).

(** [get_price_comparison]: a placeholder that ignores its argument. *)
Definition get_price_comparison (imdb_id : string) : M price_data :=
  ret {| pd_buy := "Buy this movie for $14.99!";
         pd_rent := "Rent this movie for $4.99!";
         pd_stream := "Stream this movie on a subscription service!" |}.

(** The route; [imdb_id] is [data.get("imdb_id", <empty string>)]. *)
Definition price_compare (imdb_id : string) : M price_response :=
  if negb (Py.truthy_str imdb_id)
  then ret (PriceBadRequest "IMDb ID is required")
  else
    try_except
      (price_data <- get_price_comparison imdb_id ;;
       ret (PriceAnswer price_data))
      (fun e => ret (PriceServerError (StrOf e))).

(** ** Dates, for the release window

    [ymd2ord] is [date(y, m, d).toordinal()]; [fromisoformat] reads a
    [YYYY-MM-DD] string. *)

Module Calendar.

Definition is_leap (y : Z) : bool :=
  (y mod 4 =? 0) && (negb (y mod 100 =? 0) || (y mod 400 =? 0)).

Definition days_before_year (y : Z) : Z :=
  let p := y - 1 in p * 365 + p / 4 - p / 100 + p / 400.

Definition days_in_month (y m : Z) : Z :=
  if m =? 2 then (if is_leap y then 29 else 28)
  else if (m =? 4) || (m =? 6) || (m =? 9) || (m =? 11) then 30
  else 31.

Fixpoint days_before_month (y : Z) (m : nat) : Z :=
  match m with
  | O => 0
  | S O => 0
  | S k => days_before_month y k + days_in_month y (Z.of_nat k)
  end.

Definition ymd2ord (y m d : Z) : Z :=
  days_before_year y + days_before_month y (Z.to_nat m) + d.

Definition digit (c : ascii) : option Z :=
  let n := Py.code c in
  if ((48 <=? n) && (n <=? 57))%N then Some (Z.of_N n - 48) else None.

Fixpoint number_go (acc : Z) (s : string) : option Z :=
  match s with
  | EmptyString => Some acc
  | String c s' =>
      match digit c with
      | Some d => number_go (10 * acc + d) s'
      | None => None
      end
  end.

Definition number (width : nat) (s : string) : option Z :=
  if (String.length s =? width)%nat then number_go 0 s else None.

Definition fromisoformat (s : string) : option Z :=
  match Py.split "-" s with
  | [ys; ms; ds] =>
      match number 4 ys, number 2 ms, number 2 ds with
      | Some y, Some m, Some d =>
          if (1 <=? y) && (1 <=? m) && (m <=? 12) && (1 <=? d) && (d <=? days_in_month y m)
          then Some (ymd2ord y m d)
          else None
      | _, _, _ => None
      end
  | _ => None
  end.

End Calendar.


(** ** Vocabulary of the statements *)

(** The guard of lines 183-186 as one test: the candidate lists at least
    one genre id, and its resolved names contain "Horror" or are at most
    two. *)
Definition keeps (genre_map : gmap Z string) (movie : tmdb_movie) : bool :=
  match m_genre_ids movie with
  | Some ((_ :: _) as ids) =>
      bool_decide ("Horror" ∈ genre_names genre_map ids)
      || (length (genre_names genre_map ids) <=? 2)%nat
  | _ => false
  end.

(** The filter in the words of the specification: tagged "Horror", or at
    most two genres (a candidate without genres has none, hence at most
    two). *)
Definition qualifies_as_specified (genre_map : gmap Z string) (movie : tmdb_movie) : bool :=
  let names := genre_names genre_map (default [] (m_genre_ids movie)) in
  bool_decide ("Horror" ∈ names) || (length names <=? 2)%nat.

(** The id-to-name table read directly: the last row with the id wins,
    an id without a row is "Unknown". *)
Definition table_name (table : list genre) (g_id' : Z) : string :=
  match find (fun g => g_id g =? g_id') (rev table) with
  | Some g => g_name g
  | None => "Unknown"
  end.

(** The entry that line 193 appends for a candidate, up to the clock. *)
Definition primary_entry (w : world) (genre_map : gmap Z string)
    (movie : tmdb_movie) (r : recommendation) : Prop :=
  exists title (k : nat),
    m_title movie = Some title /\
    r = {| r_title := Some title;
           r_year := year_of (m_release_date movie);
           r_plot := m_overview movie;
           r_poster_url := poster_of (m_poster_path movie);
           r_genres := genre_names genre_map (default [] (m_genre_ids movie));
           r_imdb_id := Some (imdb_id_of (tmdb_movie_by_id w (m_id movie)));
           r_amazon_link := amazon_link_of (Py.quote title);
           r_timestamp := pretty (clock w k) |}.

(** The entry that line 224 appends for a popular movie, up to the clock. *)
Definition fallback_entry (w : world) (genre_map : gmap Z string)
    (movie : tmdb_movie) (r : recommendation) : Prop :=
  exists title (k : nat),
    m_title movie = Some title /\
    r = {| r_title := Some title;
           r_year := year_of (m_release_date movie);
           r_plot := m_overview movie;
           r_poster_url := poster_of (m_poster_path movie);
           r_genres := genre_names genre_map (default [] (m_genre_ids movie));
           r_imdb_id := None;
           r_amazon_link := amazon_link_of (Py.quote title);
           r_timestamp := pretty (clock w k) |}.

(** Every appended entry has a title that none of the entries before it
    (already collected, or appended earlier) has. *)
Fixpoint fresh_titles (seen : list (option string)) (added : list recommendation) : Prop :=
  match added with
  | [] => True
  | e :: rest => (r_title e ∉ seen) /\ fresh_titles (seen ++ [r_title e]) rest
  end.

Definition titled (movies : list tmdb_movie) : Prop :=
  Forall (fun m => is_Some (m_title m)) movies.

Definition page_movies (p : tmdb_page) : list tmdb_movie := default [] (results p).

(** The same world with another generator. *)
Definition with_rand (w : world) (r : nat -> nat) : world :=
  {| OPENAI_API_KEY := OPENAI_API_KEY w;
     OMDB_API_KEY := OMDB_API_KEY w;
     TMDB_API_KEY := TMDB_API_KEY w;
     omdb := omdb w;
     tmdb_search := tmdb_search w;
     tmdb_recommendations := tmdb_recommendations w;
     tmdb_similar := tmdb_similar w;
     tmdb_genre_list := tmdb_genre_list w;
     tmdb_movie_by_id := tmdb_movie_by_id w;
     tmdb_discover_popular := tmdb_discover_popular w;
     tmdb_discover_recent := tmdb_discover_recent w;
     chat_completion := chat_completion w;
     today := today w;
     clock := clock w;
     rand_raw := r |}.

(** The requests a run added to the log. *)
Definition issued (before after : state) : list request :=
  skipn (length (log before)) (log after).

(** The statement of C1 as the specification words it: the entries of
    the primary stage are those of the first five candidates, among the
    first ten, that are tagged "Horror" or have at most two genres. *)
Definition C1_as_stated (w : world) (genre_map : gmap Z string) (page : tmdb_page) : Prop :=
  forall s out s',
    primary_stage w genre_map page s = (Ok out, s') ->
    Forall2 (primary_entry w genre_map)
      (take 5 (List.filter (qualifies_as_specified genre_map) (take 10 (page_movies page))))
      out.

(** The state after request [r] was logged. *)
Definition asked (r : request) (s : state) : state :=
  State (log s ++ [r]) (clock_reads s) (rand_reads s).

(** The statement of C4 as the specification words it: no appended entry
    repeats a title collected before it, and appending goes on until
    five entries are collected or the popularity list is exhausted. *)
Definition C4_as_stated (w : world) (genre_map : gmap Z string)
    (recs : list recommendation) : Prop :=
  forall s out s',
    (length recs < 3)%nat ->
    fallback_stage w genre_map recs s = (Ok out, s') ->
    exists added,
      out = recs ++ added /\
      (forall before e after,
         added = before ++ e :: after ->
         r_title e ∉ map r_title (recs ++ before)) /\
      (length out = 5%nat \/
       forall m, m ∈ page_movies (tmdb_discover_popular w) ->
                 m_title m ∈ map r_title out).

(** Every movie of the recommendation, similar and popular lists
    carries a title. *)
Definition upstream_titled (w : world) : Prop :=
  (forall id, titled (page_movies (tmdb_recommendations w id))) /\
  (forall id, titled (page_movies (tmdb_similar w id))) /\
  titled (page_movies (tmdb_discover_popular w)).

(** The state after one clock read. *)
Definition ticked (s : state) : state :=
  State (log s) (S (clock_reads s)) (rand_reads s).

(** The first hit of every search carries an id. *)
Definition search_hits_identified (w : world) : Prop :=
  forall query first rest,
    results (tmdb_search w query) = Some (first :: rest) -> is_Some (m_id first).

(** The list with its head moved to the end. *)
Definition rotated {A} (l : list A) : list A := tl l ++ take 1 l.

(** The seed drawn by [random.randint(1, 1000)] in state [s]. *)
Definition seed_in (w : world) (s : state) : Z :=
  1 + Z.of_nat (rand_raw w (rand_reads s) `mod` 1000)%nat.

(** A computation that only appends to the request log. *)
Definition appends {A} (m : M A) : Prop :=
  forall s, exists rs, log (snd (m s)) = log s ++ rs.

(** The state in which the oracle takes its decision: one clock read and
    one draw after [s], for the request id. *)
Definition deciding (s : state) : state :=
  State (log s) (S (clock_reads s)) (S (rand_reads s)).

(** The request id built in state [s]:
    [f"{int(time.time())}-{random.randint(1000, 9999)}"]. *)
Definition request_id_in (w : world) (s : state) : string :=
  pretty (clock w (clock_reads s)) +:+ "-"
  +:+ pretty (1000 + Z.of_nat (rand_raw w (rand_reads s) `mod` Z.to_nat (9999 - 1000 + 1))%nat).


(** A computation that draws no random number. *)
Definition draws_nothing {A} (m : M A) : Prop :=
  forall s, rand_reads (snd (m s)) = rand_reads s.

(** A computation that leaves the request log as it is. *)
Definition requests_nothing {A} (m : M A) : Prop :=
  forall s, log (snd (m s)) = log s.

(** ** A small universe for the examples *)

Module Demo.

Definition film (id : Z) (title date : string) (genre_ids : list Z) : tmdb_movie :=
  {| m_id := Some id; m_title := Some title; m_release_date := Some date;
     m_overview := Some "A crew meets something in the dark.";
     m_poster_path := Some "/p.jpg"; m_genre_ids := Some genre_ids |}.

Definition table : genre_data :=
  GenreData (Some [Genre 27 "Horror"; Genre 878 "Science Fiction";
                   Genre 53 "Thriller"; Genre 35 "Comedy"]).

Definition alien := film 348 "Alien" "1979-05-25" [27; 878].
Definition thing := film 1091 "The Thing" "1982-06-25" [27; 9648; 878].
Definition fog := film 790 "The Fog" "1980-02-08" [27].
Definition untagged := film 11 "Nameless" "1990-01-01" [].
Definition romcom := film 12 "Sunny Days" "2001-01-01" [35; 53; 878].
Definition halloween78 := film 948 "Halloween" "1978-10-25" [27; 53].
Definition halloween18 := film 424139 "Halloween" "2018-10-18" [27; 53].
Definition scream := film 4232 "Scream" "1996-12-20" [27].
Definition saw := film 176 "Saw" "2004-10-01" [27; 53].
Definition it := film 346364 "It" "2017-09-06" [27].
Definition upcoming := film 999 "Next Year's Terror" "2031-01-01" [27].
Definition old := film 998 "Last Month's Terror" "2024-06-01" [27].

Definition no_match : omdb_data :=
  OmdbData (Some "False") None None None None None None None.

Definition details (id : option Z) : tmdb_details :=
  TmdbDetails (Some (ExternalIds (Some (Some "tt0078748")))).

(** A world with every credential set, where OMDb matches nothing, the
    search finds [alien], and the lists are the given ones. *)
Definition world_of (recs similar popular recent : option (list tmdb_movie))
    (llm : llm_result) : world :=
  {| OPENAI_API_KEY := Some "sk";
     OMDB_API_KEY := Some "ok";
     TMDB_API_KEY := Some "tk";
     omdb := fun _ => no_match;
     tmdb_search := fun _ => TmdbPage (Some [alien]);
     tmdb_recommendations := fun _ => TmdbPage recs;
     tmdb_similar := fun _ => TmdbPage similar;
     tmdb_genre_list := table;
     tmdb_movie_by_id := details;
     tmdb_discover_popular := TmdbPage popular;
     tmdb_discover_recent := fun _ => TmdbPage recent;
     chat_completion := fun _ _ _ _ => llm;
     today := 739052;
     clock := fun k => 1718438400 + Z.of_nat k;
     rand_raw := fun k => k |}.

Definition w1 : world :=
  world_of (Some [thing; untagged; romcom; fog])
           (Some [scream])
           (Some [halloween78; saw; halloween18; it; scream; alien])
           (Some [upcoming; old])
           (LlmChoices [Some " It was shot in 14 weeks. "]).

(** A world whose recent releases all fall inside the window. *)
Definition w2 : world :=
  world_of None None None
           (Some [film 1 "Black Mass" "2024-06-10" [27];
                  film 2 "Cold Cellar" "2024-06-05" [27]; old])
           (LlmChoices []).

(** The same world with other credentials, another OMDb, another
    search. *)
Definition with_keys (w : world) (openai omdb_key tmdb_key : option string) : world :=
  {| OPENAI_API_KEY := openai; OMDB_API_KEY := omdb_key; TMDB_API_KEY := tmdb_key;
     omdb := omdb w; tmdb_search := tmdb_search w;
     tmdb_recommendations := tmdb_recommendations w;
     tmdb_similar := tmdb_similar w; tmdb_genre_list := tmdb_genre_list w;
     tmdb_movie_by_id := tmdb_movie_by_id w;
     tmdb_discover_popular := tmdb_discover_popular w;
     tmdb_discover_recent := tmdb_discover_recent w;
     chat_completion := chat_completion w;
     today := today w; clock := clock w; rand_raw := rand_raw w |}.

Definition with_omdb (w : world) (answer : string -> omdb_data) : world :=
  {| OPENAI_API_KEY := OPENAI_API_KEY w; OMDB_API_KEY := OMDB_API_KEY w;
     TMDB_API_KEY := TMDB_API_KEY w;
     omdb := answer; tmdb_search := tmdb_search w;
     tmdb_recommendations := tmdb_recommendations w;
     tmdb_similar := tmdb_similar w; tmdb_genre_list := tmdb_genre_list w;
     tmdb_movie_by_id := tmdb_movie_by_id w;
     tmdb_discover_popular := tmdb_discover_popular w;
     tmdb_discover_recent := tmdb_discover_recent w;
     chat_completion := chat_completion w;
     today := today w; clock := clock w; rand_raw := rand_raw w |}.

Definition with_search (w : world) (answer : string -> tmdb_page) : world :=
  {| OPENAI_API_KEY := OPENAI_API_KEY w; OMDB_API_KEY := OMDB_API_KEY w;
     TMDB_API_KEY := TMDB_API_KEY w;
     omdb := omdb w; tmdb_search := answer;
     tmdb_recommendations := tmdb_recommendations w;
     tmdb_similar := tmdb_similar w; tmdb_genre_list := tmdb_genre_list w;
     tmdb_movie_by_id := tmdb_movie_by_id w;
     tmdb_discover_popular := tmdb_discover_popular w;
     tmdb_discover_recent := tmdb_discover_recent w;
     chat_completion := chat_completion w;
     today := today w; clock := clock w; rand_raw := rand_raw w |}.

Definition alien_at_omdb : omdb_data :=
  OmdbData (Some "True") (Some "Alien") (Some "1979") (Some "Ridley Scott")
           (Some "A crew answers a signal.") (Some "http://img/alien.jpg")
           (Some "tt0078748") (Some "Horror, Sci-Fi").

(** [w1] with OMDb knowing "Alien"; [w1] with a search that finds
    nothing; [w1] with an empty TMDb credential. *)
Definition w_omdb : world := with_omdb w1 (fun _ => alien_at_omdb).
Definition w_unknown : world := with_search w1 (fun _ => TmdbPage (Some [])).
Definition w_nokey : world := with_keys w1 (Some "sk") (Some "ok") (Some EmptyString).




(** Five candidates, of which [thing], [fog] and [scream] pass the
    filter. *)
Definition candidates : tmdb_page :=
  TmdbPage (Some [thing; untagged; romcom; fog; scream]).

End Demo.

(** * Properties *)

(** ** The primitives on examples *)

Example split_ws_ex :
  Py.split_ws "  tell me	about  Alien " = ["tell"; "me"; "about"; "Alien"].
Proof. reflexivity. Qed.

Example split_ex : Py.split ", " "Horror, Sci-Fi, Thriller" = ["Horror"; "Sci-Fi"; "Thriller"].
Proof. reflexivity. Qed.

Example split_ex2 : Py.split "-" "1979-05-25" = ["1979"; "05"; "25"].
Proof. reflexivity. Qed.

Example split_ex3 : Py.split ", " EmptyString = [EmptyString].
Proof. reflexivity. Qed.

Example split_ex4 : Py.split "-" "a-" = ["a"; EmptyString].
Proof. reflexivity. Qed.

Example quote_ex : Py.quote "The Thing (1982)" = "The%20Thing%20%281982%29".
Proof. reflexivity. Qed.

Example strip_ex : Py.strip "  The  Fog " = "The  Fog".
Proof. reflexivity. Qed.

Example slice_ex : Py.slice_to (-1) [1; 2; 3] = [1; 2] /\ Py.slice_to 2 [1; 2; 3] = [1; 2]
  /\ Py.slice_to (-5) [1; 2; 3] = [] /\ Py.slice_to 7 [1; 2; 3] = [1; 2; 3].
Proof. repeat split; reflexivity. Qed.

Example pretty_ex : pretty 1700000000 = "1700000000".
Proof. vm_compute. reflexivity. Qed.

Example ord_ex : Calendar.fromisoformat "2024-06-15" = Some 739052
  /\ Calendar.fromisoformat "2031-01-01" = Some 741443
  /\ Calendar.fromisoformat "2024-05-16" = Some 739022
  /\ Calendar.fromisoformat "2024-02-30" = None.
Proof. repeat split; reflexivity. Qed.

(** ** The monad and the loops *)

Ltac run_in H :=
  unfold bind, fetch, ret, raise, time_time, quote_opt in H; cbv beta iota in H.

Ltac run_goal :=
  unfold bind, fetch, ret, raise, time_time, quote_opt; cbv beta iota.

Lemma bind_ok {A B} (m : M A) (k : A -> M B) s b s' :
  bind m k s = (Ok b, s') ->
  exists a s1, m s = (Ok a, s1) /\ k a s1 = (Ok b, s').
Proof.
  unfold bind. destruct (m s) as [[a|e] s1]; intros H.
  - exists a, s1. split; [reflexivity | exact H].
  - discriminate H.
Qed.

Lemma bind_run {A B} (m : M A) (k : A -> M B) s a s1 :
  m s = (Ok a, s1) -> bind m k s = k a s1.
Proof. unfold bind. intros ->. reflexivity. Qed.

Section Loops.

Variable w : world.
Variable genre_map : gmap Z string.

(** What the loop of the primary stage returns: the entries of the first
    qualifying candidates, as many as still fit under five; and what it
    requests: the details of exactly those candidates. *)
Lemma primary_loop_ok movies : forall recs s out s',
  primary_loop w genre_map movies recs s = (Ok out, s') ->
  (length recs < 5)%nat ->
  exists added,
    out = recs ++ added /\
    Forall2 (primary_entry w genre_map)
      (take (5 - length recs) (List.filter (keeps genre_map) movies)) added /\
    log s' = log s ++ map (fun m => TmdbMovieDetails (m_id m))
                          (take (5 - length recs) (List.filter (keeps genre_map) movies)).
Proof.
  induction movies as [|movie rest IH]; intros recs s out s' Hrun Hlen.
  - cbn [primary_loop] in Hrun. run_in Hrun. injection Hrun as <- <-.
    exists []. cbn [List.filter]. rewrite !app_nil_r, take_nil.
    cbn [map]. rewrite app_nil_r. repeat split. constructor.
  - cbn [primary_loop] in Hrun. cbn [List.filter].
    destruct (m_genre_ids movie) as [[|g ids]|] eqn:Hids.
    1, 3: assert (keeps genre_map movie = false) as ->
            by (unfold keeps; rewrite Hids; reflexivity);
          apply (IH _ _ _ _ Hrun Hlen).
    cbv zeta in Hrun.
    destruct (bool_decide ("Horror" ∈ genre_names genre_map (g :: ids))
              || (length (genre_names genre_map (g :: ids)) <=? 2)%nat) eqn:Hkeep.
    2: assert (keeps genre_map movie = false) as ->
         by (unfold keeps; rewrite Hids; exact Hkeep);
       apply (IH _ _ _ _ Hrun Hlen).
    assert (keeps genre_map movie = true) as ->
      by (unfold keeps; rewrite Hids; exact Hkeep).
    run_in Hrun.
    destruct (m_title movie) as [title|] eqn:Htitle; [ | discriminate Hrun ].
    run_in Hrun.
    match type of Hrun with
    | context [recs ++ [?e]] => set (entry := e) in Hrun
    end.
    assert (Hentry : primary_entry w genre_map movie entry).
    { exists title, (clock_reads s). split; [exact Htitle |].
      subst entry. rewrite Hids. reflexivity. }
    clearbody entry.
    destruct (5 <=? length (recs ++ [entry]))%nat eqn:Hfull.
    + injection Hrun as <- <-.
      apply Nat.leb_le in Hfull. rewrite length_app in Hfull. cbn in Hfull.
      exists [entry].
      replace (5 - length recs)%nat with 1%nat by lia.
      cbn [take map log]. rewrite take_0.
      repeat split. repeat constructor. exact Hentry.
    + apply Nat.leb_gt in Hfull.
      destruct (IH _ _ _ _ Hrun Hfull) as (added & -> & Hall & Hlog).
      exists (entry :: added).
      rewrite length_app in Hall, Hlog, Hfull. cbn [length] in Hall, Hlog, Hfull.
      replace (5 - length recs)%nat with (S (5 - (length recs + 1)))%nat by lia.
      cbn [take map]. split; [ rewrite <- app_assoc; reflexivity |].
      split; [ constructor; assumption |].
      rewrite Hlog. cbn [log]. rewrite <- app_assoc. reflexivity.
Qed.

(** The loop returns whenever the candidates it appends carry a title. *)
Lemma primary_loop_returns movies : forall recs s,
  (length recs < 5)%nat ->
  titled (take (5 - length recs) (List.filter (keeps genre_map) movies)) ->
  exists out s', primary_loop w genre_map movies recs s = (Ok out, s').
Proof.
  induction movies as [|movie rest IH]; intros recs s Hlen Ht.
  - eexists _, _. reflexivity.
  - cbn [primary_loop]. cbn [List.filter] in Ht.
    destruct (m_genre_ids movie) as [[|g ids]|] eqn:Hids.
    1, 3: assert (keeps genre_map movie = false) as Hk
            by (unfold keeps; rewrite Hids; reflexivity);
          rewrite Hk in Ht; apply IH; assumption.
    cbv zeta.
    destruct (bool_decide ("Horror" ∈ genre_names genre_map (g :: ids))
              || (length (genre_names genre_map (g :: ids)) <=? 2)%nat) eqn:Hkeep.
    2: assert (keeps genre_map movie = false) as Hk
         by (unfold keeps; rewrite Hids; exact Hkeep);
       rewrite Hk in Ht; apply IH; assumption.
    assert (keeps genre_map movie = true) as Hk
      by (unfold keeps; rewrite Hids; exact Hkeep).
    rewrite Hk in Ht.
    replace (5 - length recs)%nat with (S (5 - (length recs + 1)))%nat in Ht by lia.
    cbn [take] in Ht. inversion Ht as [|? ? [title Htitle] Hrest]; subst.
    run_goal. rewrite Htitle. run_goal.
    destruct (5 <=? _)%nat eqn:Hfull; [ eexists _, _; reflexivity |].
    apply Nat.leb_gt in Hfull. apply IH; [ exact Hfull |].
    rewrite length_app. exact Hrest.
Qed.

Lemma seen_title (t : option string) (recs : list recommendation) :
  existsb (fun r => bool_decide (r_title r = t)) recs = true <-> t ∈ map r_title recs.
Proof.
  rewrite existsb_exists, list_elem_of_fmap. split.
  - intros (r & Hin & Heq). apply bool_decide_eq_true in Heq.
    exists r. split; [ symmetry; exact Heq | apply list_elem_of_In; exact Hin ].
  - intros (r & Heq & Hin). exists r.
    split; [ apply list_elem_of_In; exact Hin | apply bool_decide_eq_true; symmetry; exact Heq ].
Qed.

(** What the loop of the fallback stage returns: entries of a
    subsequence of the popular movies, each with a title not seen
    before it; the loop ends with five entries or with every movie it
    was given represented by its title. *)
Lemma fallback_loop_ok movies : forall recs s out s',
  fallback_loop w genre_map movies recs s = (Ok out, s') ->
  exists picked added,
    out = recs ++ added /\
    sublist picked movies /\
    Forall2 (fallback_entry w genre_map) picked added /\
    fresh_titles (map r_title recs) added /\
    ((length recs < 5)%nat ->
     (length out <= 5)%nat /\
     (length out = 5%nat \/ forall m, m ∈ movies -> m_title m ∈ map r_title out)).
Proof.
  induction movies as [|movie rest IH]; intros recs s out s' Hrun.
  - cbn [fallback_loop] in Hrun. run_in Hrun. injection Hrun as <- <-.
    exists [], []. rewrite app_nil_r.
    split; [ reflexivity |]. split; [ constructor |]. split; [ constructor |].
    split; [ exact I |]. intros Hlen. split; [ lia |].
    right. intros m Hm. inversion Hm.
  - cbn [fallback_loop] in Hrun.
    destruct (existsb _ recs) eqn:Hdup.
    + destruct (IH _ _ _ _ Hrun) as (picked & added & -> & Hsub & Hall & Hfresh & Hend).
      exists picked, added. repeat split; try assumption.
      * apply sublist_cons. exact Hsub.
      * apply Hend; assumption.
      * destruct (Hend H) as [_ [Hfive | Hseen]]; [ left; exact Hfive | right ].
        intros m Hm. apply elem_of_cons in Hm as [-> | Hm]; [ | apply Hseen; exact Hm ].
        apply seen_title in Hdup. rewrite map_app. apply elem_of_app. left. exact Hdup.
    + cbv zeta in Hrun. run_in Hrun.
      destruct (m_title movie) as [title|] eqn:Htitle; [ | discriminate Hrun ].
      run_in Hrun.
      match type of Hrun with
      | context [recs ++ [?e]] => set (entry := e) in Hrun
      end.
      assert (Hentry : fallback_entry w genre_map movie entry).
      { exists title, (clock_reads s). split; [exact Htitle |].
        subst entry. f_equal. destruct (m_genre_ids movie) as [[|g ids]|]; reflexivity. }
      assert (Htitle' : r_title entry = m_title movie) by (rewrite Htitle; reflexivity).
      assert (Hnew : r_title entry ∉ map r_title recs).
      { replace (r_title entry) with (Some title) by reflexivity.
        intros Hin. apply seen_title in Hin. congruence. }
      clearbody entry.
      destruct (5 <=? length (recs ++ [entry]))%nat eqn:Hfull.
      * injection Hrun as <- <-.
        apply Nat.leb_le in Hfull. rewrite length_app in Hfull. cbn in Hfull.
        exists [movie], [entry]. repeat split.
        -- apply sublist_skip, sublist_nil_l.
        -- repeat constructor. exact Hentry.
        -- exact Hnew.
        -- rewrite length_app. cbn. lia.
        -- left. rewrite length_app. cbn. lia.
      * apply Nat.leb_gt in Hfull.
        destruct (IH _ _ _ _ Hrun) as (picked & added & -> & Hsub & Hall & Hfresh & Hend).
        exists (movie :: picked), (entry :: added). repeat split.
        -- rewrite <- app_assoc. reflexivity.
        -- apply sublist_skip. exact Hsub.
        -- constructor; assumption.
        -- exact Hnew.
        -- rewrite map_app in Hfresh. exact Hfresh.
        -- apply Hend. exact Hfull.
        -- destruct (Hend Hfull) as [_ [Hfive | Hseen]]; [ left; exact Hfive | right ].
           intros m Hm. apply elem_of_cons in Hm as [-> | Hm]; [ | apply Hseen; exact Hm ].
           rewrite <- Htitle', !map_app. cbn [map].
           apply elem_of_app. left. apply elem_of_app. right.
           apply list_elem_of_singleton. reflexivity.
Qed.

Lemma fallback_loop_returns movies : forall recs s,
  titled movies ->
  exists out s', fallback_loop w genre_map movies recs s = (Ok out, s').
Proof.
  induction movies as [|movie rest IH]; intros recs s Ht.
  - eexists _, _. reflexivity.
  - inversion Ht as [|? ? [title Htitle] Hrest]; subst.
    cbn [fallback_loop].
    destruct (existsb _ recs); [ apply IH; assumption |].
    cbv zeta. run_goal. rewrite Htitle. run_goal.
    destruct (5 <=? _)%nat; [ eexists _, _; reflexivity | apply IH; assumption ].
Qed.


End Loops.

Lemma fresh_titles_split added : forall seen,
  fresh_titles seen added ->
  forall before e after,
    added = before ++ e :: after -> r_title e ∉ seen ++ map r_title before.
Proof.
  induction added as [|x rest IH]; intros seen Hfresh before e after Heq.
  - destruct before; discriminate Heq.
  - destruct Hfresh as [Hx Hrest]. destruct before as [|b before'].
    + injection Heq as -> _. rewrite app_nil_r. exact Hx.
    + injection Heq as -> Heq'. cbn [map].
      rewrite (cons_middle (r_title b)), app_assoc.
      apply (IH _ Hrest _ _ _ Heq').
Qed.

(** ** The filter of the primary stage (C1) *)

Lemma primary_stage_unfold w genre_map page :
  primary_stage w genre_map page = primary_loop w genre_map (take 10 (page_movies page)) [].
Proof.
  unfold primary_stage, page_movies.
  destruct (results page) as [[|m rs]|]; reflexivity.
Qed.

(** C1, amended.  Among the first ten candidates, a candidate is kept
    exactly when it lists at least one genre id and its resolved names
    contain "Horror" or are at most two, until five are kept: the primary
    stage returns the entries of the first five such candidates, in
    order, and it does return when those carry a title. *)
Theorem primary_stage_keeps (w : world) (genre_map : gmap Z string) (page : tmdb_page) :
  let candidates := take 10 (page_movies page) in
  let chosen := take 5 (List.filter (keeps genre_map) candidates) in
  (forall movie, keeps genre_map movie = true <->
     truthy_list (m_genre_ids movie) = true /\
     qualifies_as_specified genre_map movie = true) /\
  (forall s out s', primary_stage w genre_map page s = (Ok out, s') ->
     Forall2 (primary_entry w genre_map) chosen out) /\
  (titled chosen ->
   forall s, exists out s', primary_stage w genre_map page s = (Ok out, s')).
Proof.
  intros candidates chosen. split; [ | split ].
  - intros movie. unfold keeps, qualifies_as_specified, truthy_list.
    destruct (m_genre_ids movie) as [[|g ids]|]; cbn [default]; intuition congruence.
  - intros s out s' Hrun. rewrite primary_stage_unfold in Hrun.
    destruct (primary_loop_ok _ _ _ _ _ _ _ Hrun) as (added & -> & Hall & _); [ cbn; lia |].
    exact Hall.
  - intros Ht s. rewrite primary_stage_unfold.
    apply primary_loop_returns; [ cbn; lia | exact Ht ].
Qed.

Lemma primary_stage_keeps_witness :
  exists out s',
    primary_stage Demo.w1 (genre_map_of Demo.table)
      (TmdbPage (Some [Demo.thing; Demo.untagged; Demo.romcom; Demo.fog])) init
    = (Ok out, s') /\
    Forall2 (primary_entry Demo.w1 (genre_map_of Demo.table)) [Demo.thing; Demo.fog] out.
Proof.
  destruct (primary_stage_keeps Demo.w1 (genre_map_of Demo.table)
              (TmdbPage (Some [Demo.thing; Demo.untagged; Demo.romcom; Demo.fog])))
    as (_ & Hkept & Hreturns).
  destruct (Hreturns ltac:(repeat constructor; eexists; reflexivity) init)
    as (out & s' & Hrun).
  exists out, s'. split; [ exact Hrun | exact (Hkept _ _ _ Hrun) ].
Defined.

(** C1 as stated fails: [Demo.untagged] lists no genre, so it has at
    most two, it is the second of four candidates and fewer than five
    entries are collected, yet the primary stage skips it. *)
Lemma C1_counterexample :
  let genre_map := genre_map_of Demo.table in
  let page := TmdbPage (Some [Demo.thing; Demo.untagged; Demo.romcom; Demo.fog]) in
  qualifies_as_specified genre_map Demo.untagged = true /\
  (exists out s',
     primary_stage Demo.w1 genre_map page init = (Ok out, s') /\
     map r_title out = [Some "The Thing"; Some "The Fog"]) /\
  ~ C1_as_stated Demo.w1 genre_map page.
Proof.
  intros genre_map page. split; [ reflexivity | split ].
  - eexists _, _. split; [ vm_compute; reflexivity | reflexivity ].
  - intros H.
    assert (Hrun : exists out s', primary_stage Demo.w1 genre_map page init = (Ok out, s')
                                  /\ length out = 2%nat).
    { eexists _, _. split; [ vm_compute; reflexivity | reflexivity ]. }
    destruct Hrun as (out & s' & Hrun & Hlen).
    apply H in Hrun. apply Forall2_length in Hrun.
    rewrite Hlen in Hrun. vm_compute in Hrun. discriminate Hrun.
Qed.

(** ** The popularity fallback (C4) *)

Lemma fallback_stage_unfold w genre_map recs s :
  (length recs < 3)%nat ->
  fallback_stage w genre_map recs s =
  fallback_loop w genre_map (take 5 (page_movies (tmdb_discover_popular w))) recs
                (asked TmdbDiscoverPopular s).
Proof.
  intros Hlen. unfold fallback_stage, page_movies.
  apply Nat.ltb_lt in Hlen. rewrite Hlen. run_goal.
  destruct (results (tmdb_discover_popular w)) as [[|m rs]|]; reflexivity.
Qed.

Lemma fallback_stage_skipped w genre_map recs s :
  (3 <= length recs)%nat ->
  fallback_stage w genre_map recs s = (Ok recs, s).
Proof.
  intros Hlen. unfold fallback_stage.
  apply Nat.ltb_ge in Hlen. rewrite Hlen. reflexivity.
Qed.

(** C4, amended.  With fewer than three entries collected, the fallback
    stage appends entries of the first five popular movies only, in
    order; no appended entry has the title of an entry collected or
    appended before it; appending goes on until five entries are
    collected or those first five movies are exhausted (each is then
    represented by its title).  The stage returns when those movies
    carry a title. *)
Theorem fallback_stage_appends (w : world) (genre_map : gmap Z string)
    (recs : list recommendation) :
  (length recs < 3)%nat ->
  (forall s out s',
     fallback_stage w genre_map recs s = (Ok out, s') ->
     exists picked added,
       out = recs ++ added /\
       sublist picked (take 5 (page_movies (tmdb_discover_popular w))) /\
       Forall2 (fallback_entry w genre_map) picked added /\
       (forall before e after,
          added = before ++ e :: after ->
          r_title e ∉ map r_title (recs ++ before)) /\
       (length out <= 5)%nat /\
       (length out = 5%nat \/
        forall m, m ∈ take 5 (page_movies (tmdb_discover_popular w)) ->
                  m_title m ∈ map r_title out)) /\
  (titled (take 5 (page_movies (tmdb_discover_popular w))) ->
   forall s, exists out s', fallback_stage w genre_map recs s = (Ok out, s')).
Proof.
  intros Hlen. split.
  - intros s out s' Hrun. rewrite fallback_stage_unfold in Hrun by exact Hlen.
    destruct (fallback_loop_ok _ _ _ _ _ _ _ Hrun)
      as (picked & added & -> & Hsub & Hall & Hfresh & Hend).
    exists picked, added.
    split; [ reflexivity |]. split; [ exact Hsub |]. split; [ exact Hall |].
    split; [ | apply Hend; lia ].
    intros before e after Heq. rewrite map_app.
    exact (fresh_titles_split _ _ Hfresh _ _ _ Heq).
  - intros Ht s. rewrite fallback_stage_unfold by exact Hlen.
    apply fallback_loop_returns. exact Ht.
Qed.

Lemma fallback_stage_appends_witness :
  exists out s',
    fallback_stage Demo.w1 (genre_map_of Demo.table) [] init = (Ok out, s') /\
    (length out <= 5)%nat.
Proof.
  destruct (fallback_stage_appends Demo.w1 (genre_map_of Demo.table) [])
    as (Hok & Hreturns); [ cbn; lia |].
  destruct (Hreturns ltac:(repeat constructor; eexists; reflexivity) init)
    as (out & s' & Hrun).
  exists out, s'. split; [ exact Hrun |].
  destruct (Hok _ _ _ Hrun) as (? & ? & _ & _ & _ & _ & Hle & _). exact Hle.
Defined.

(** C4 as stated fails: the popular list of [Demo.w1] has two movies
    called "Halloween" among its first five, so only four entries are
    collected, and its sixth movie, "Alien", is never looked at. *)
Lemma C4_counterexample :
  (exists out s',
     fallback_stage Demo.w1 (genre_map_of Demo.table) [] init = (Ok out, s') /\
     map r_title out = [Some "Halloween"; Some "Saw"; Some "It"; Some "Scream"]) /\
  Demo.alien ∈ page_movies (tmdb_discover_popular Demo.w1) /\
  ~ C4_as_stated Demo.w1 (genre_map_of Demo.table) [].
Proof.
  assert (Hrun : exists out s',
     fallback_stage Demo.w1 (genre_map_of Demo.table) [] init = (Ok out, s') /\
     map r_title out = [Some "Halloween"; Some "Saw"; Some "It"; Some "Scream"]).
  { eexists _, _. split; [ vm_compute; reflexivity | reflexivity ]. }
  assert (Hin : Demo.alien ∈ page_movies (tmdb_discover_popular Demo.w1)).
  { cbn. do 5 apply list_elem_of_further. apply list_elem_of_here. }
  split; [ exact Hrun | split; [ exact Hin |] ].
  intros H. destruct Hrun as (out & s' & Hrun & Htitles).
  destruct (H init out s' ltac:(cbn; lia) Hrun) as (added & _ & _ & [Hfive | Hall]).
  - apply (f_equal (@length _)) in Htitles. rewrite length_map in Htitles.
    rewrite Hfive in Htitles. discriminate Htitles.
  - specialize (Hall _ Hin). rewrite Htitles in Hall.
    repeat (apply elem_of_cons in Hall as [Hall | Hall]; [ discriminate Hall |]).
    inversion Hall.
Qed.

(** ** External identifier and marketplace link of the entries (C10) *)

Lemma elem_of_take_filter {A} (f : A -> bool) (n : nat) (l : list A) (x : A) :
  x ∈ take n (List.filter f l) -> x ∈ l /\ f x = true.
Proof.
  intros Hin. apply elem_of_take in Hin as (i & Hi & _).
  assert (Hx : x ∈ List.filter f l) by (apply list_elem_of_lookup; eauto).
  apply list_elem_of_In, filter_In in Hx as [Hx Hf].
  split; [ apply list_elem_of_In; exact Hx | exact Hf ].
Qed.

Lemma issued_app s s' (rs : list request) :
  log s' = log s ++ rs -> issued s s' = rs.
Proof.
  intros H. unfold issued. rewrite H. apply drop_app_length.
Qed.




(** ** Candidates, collection and shuffle *)

Lemma fetch_condition (page : tmdb_page) :
  negb (truthy_list (results page)) || (length (default [] (results page)) <? 3)%nat
  = (length (page_movies page) <? 3)%nat.
Proof.
  unfold page_movies. destruct (results page) as [[|m rs]|]; reflexivity.
Qed.

Lemma fetch_candidates_run w movie_id s :
  let rec_data := tmdb_recommendations w movie_id in
  let similar_data := tmdb_similar w movie_id in
  fetch_candidates w movie_id s =
  if (length (page_movies rec_data) <? 3)%nat
  then (Ok (if truthy_list (results similar_data) then similar_data else rec_data),
        asked (TmdbSimilar movie_id) (asked (TmdbRecommendations movie_id) s))
  else (Ok rec_data, asked (TmdbRecommendations movie_id) s).
Proof.
  intros rec_data similar_data. unfold fetch_candidates. run_goal.
  fold rec_data. rewrite fetch_condition.
  destruct (length (page_movies rec_data) <? 3)%nat; [ | reflexivity ].
  run_goal. fold similar_data.
  destruct (truthy_list (results similar_data)); reflexivity.
Qed.

Lemma insert_head_perm {A} (t : list A) : forall (j : nat) (b h : A),
  t !! j = Some b -> b :: <[j:=h]> t ≡ₚ h :: t.
Proof.
  induction t as [|c t IH]; intros j b h Hj; [ discriminate Hj |].
  destruct j as [|j]; cbn in Hj |- *.
  - injection Hj as ->. apply Permutation_swap.
  - rewrite (Permutation_swap c b), (IH _ _ h Hj). apply Permutation_swap.
Qed.

Lemma swap_perm {A} (x : list A) : forall i j, swap i j x ≡ₚ x.
Proof.
  unfold swap. induction x as [|h t IH]; intros i j; [ destruct i; reflexivity |].
  destruct i as [|i], j as [|j]; cbn.
  - reflexivity.
  - destruct (t !! j) as [b|] eqn:Hj; [ | reflexivity ].
    cbn. apply insert_head_perm. exact Hj.
  - destruct (t !! i) as [a|] eqn:Hi; [ | reflexivity ].
    cbn. apply insert_head_perm. exact Hi.
  - specialize (IH i j).
    destruct (t !! i) as [a|]; [ | reflexivity ].
    destruct (t !! j) as [b|]; [ | reflexivity ].
    cbn. rewrite IH. reflexivity.
Qed.

(** The shuffle never raises, and returns a permutation. *)
Lemma shuffle_loop_run {A} w (i : nat) : forall (x : list A) s,
  exists out s', shuffle_loop w i x s = (Ok out, s') /\ out ≡ₚ x.
Proof.
  induction i as [|i IH]; intros x s.
  - exists x, s. split; reflexivity.
  - cbn [shuffle_loop]. unfold bind, randbelow.
    match goal with
    | |- context [shuffle_loop w i ?y ?t] => destruct (IH y t) as (out & s' & Hrun & Hperm)
    end.
    exists out, s'. split; [ exact Hrun |].
    rewrite Hperm. apply swap_perm.
Qed.

Lemma primary_stage_length w genre_map page s out s' :
  primary_stage w genre_map page s = (Ok out, s') -> (length out <= 5)%nat.
Proof.
  intros Hrun. rewrite primary_stage_unfold in Hrun.
  destruct (primary_loop_ok _ _ _ _ _ _ _ Hrun) as (added & -> & Hall & _); [ cbn; lia |].
  apply Forall2_length in Hall. cbn [app]. rewrite <- Hall, length_take.
  apply Nat.le_min_l.
Qed.

Lemma fallback_stage_length w genre_map recs s out s' :
  (length recs <= 5)%nat ->
  fallback_stage w genre_map recs s = (Ok out, s') -> (length out <= 5)%nat.
Proof.
  intros Hle Hrun. destruct (Nat.lt_ge_cases (length recs) 3) as [Hlen | Hlen].
  - rewrite fallback_stage_unfold in Hrun by exact Hlen.
    destruct (fallback_loop_ok _ _ _ _ _ _ _ Hrun) as (? & ? & _ & _ & _ & _ & Hend).
    apply Hend. lia.
  - rewrite fallback_stage_skipped in Hrun by exact Hlen.
    injection Hrun as <- <-. exact Hle.
Qed.

(** What is collected before the shuffle never exceeds five entries. *)
Lemma gather_length w movie_id s out s' :
  gather w movie_id s = (Ok out, s') -> (length out <= 5)%nat.
Proof.
  unfold gather. intros Hrun.
  apply bind_ok in Hrun as (rec_data & s1 & _ & Hrun).
  apply bind_ok in Hrun as (genre_data & s2 & _ & Hrun).
  cbv zeta in Hrun.
  apply bind_ok in Hrun as (recs & s3 & Hprimary & Hfallback).
  apply primary_stage_length in Hprimary.
  exact (fallback_stage_length _ _ _ _ _ _ Hprimary Hfallback).
Qed.

Lemma titled_take_filter (f : tmdb_movie -> bool) n movies :
  titled movies -> titled (take n (List.filter f movies)).
Proof.
  unfold titled. rewrite !Forall_forall. intros H m Hin.
  apply H. apply (elem_of_take_filter _ _ _ _ Hin).
Qed.

Lemma titled_take n movies : titled movies -> titled (take n movies).
Proof. apply Forall_take. Qed.

Lemma gather_returns w movie_id s :
  upstream_titled w -> exists out s', gather w movie_id s = (Ok out, s').
Proof.
  intros (Hrecs & Hsimilar & Hpopular). unfold gather.
  assert (Hpool : exists pool s1, fetch_candidates w movie_id s = (Ok pool, s1)
                                  /\ titled (page_movies pool)).
  { rewrite fetch_candidates_run.
    destruct (_ <? _)%nat; [ destruct (truthy_list _) |]; eexists _, _; split;
      try reflexivity; auto. }
  destruct Hpool as (pool & s1 & Hfetch & Hpool).
  rewrite (bind_run _ _ _ _ _ Hfetch).
  unfold bind at 1, fetch at 1. cbv zeta.
  set (genre_map := genre_map_of (tmdb_genre_list w)).
  set (s2 := State _ _ _).
  destruct (primary_loop_returns w genre_map (take 10 (page_movies pool)) [] s2)
    as (recs & s3 & Hprimary); [ cbn; lia | |].
  { apply titled_take_filter, titled_take, Hpool. }
  rewrite <- primary_stage_unfold in Hprimary.
  rewrite (bind_run _ _ _ _ _ Hprimary).
  destruct (Nat.lt_ge_cases (length recs) 3) as [Hlen | Hlen].
  - rewrite fallback_stage_unfold by exact Hlen.
    apply fallback_loop_returns, titled_take, Hpopular.
  - rewrite fallback_stage_skipped by exact Hlen. eexists _, _. reflexivity.
Qed.

(** C6.  Once the movie id is known, the recommendations list is
    requested; the similar list is requested exactly when the
    recommendations list has fewer than three entries, and it becomes
    the candidate pool exactly when it was requested and is not empty;
    otherwise the pool is the recommendations list.  The pool is what the
    primary stage then walks. *)
Theorem similar_list_fallback (w : world) (movie_id : Z) (s : state) :
  let rec_data := tmdb_recommendations w movie_id in
  let similar_data := tmdb_similar w movie_id in
  let fewer := (length (page_movies rec_data) <? 3)%nat in
  exists pool s',
    fetch_candidates w movie_id s = (Ok pool, s') /\
    issued s s' = TmdbRecommendations movie_id
                  :: (if fewer then [TmdbSimilar movie_id] else []) /\
    (TmdbSimilar movie_id ∈ issued s s' <-> (length (page_movies rec_data) < 3)%nat) /\
    pool = (if fewer && truthy_list (results similar_data)
            then similar_data else rec_data) /\
    gather w movie_id s =
      (genre_data <- fetch TmdbGenreList (tmdb_genre_list w) ;;
       recommendations <- primary_stage w (genre_map_of genre_data) pool ;;
       fallback_stage w (genre_map_of genre_data) recommendations) s'.
Proof.
  intros rec_data similar_data fewer.
  pose proof (fetch_candidates_run w movie_id s) as Hrun. cbv zeta in Hrun.
  fold rec_data similar_data fewer in Hrun.
  assert (Hfewer : fewer = true <-> (length (page_movies rec_data) < 3)%nat)
    by apply Nat.ltb_lt.
  destruct fewer.
  - eexists _, _. split; [ exact Hrun |].
    assert (Hlog : issued s (asked (TmdbSimilar movie_id)
                               (asked (TmdbRecommendations movie_id) s))
                   = [TmdbRecommendations movie_id; TmdbSimilar movie_id]).
    { apply issued_app. cbn. rewrite <- app_assoc. reflexivity. }
    rewrite Hlog. split; [ reflexivity |]. split; [ | split; [ reflexivity |] ].
    + split; [ intros _; apply Hfewer; reflexivity |].
      intros _. apply list_elem_of_further, list_elem_of_here.
    + unfold gather. rewrite (bind_run _ _ _ _ _ Hrun). reflexivity.
  - eexists _, _. split; [ exact Hrun |].
    assert (Hlog : issued s (asked (TmdbRecommendations movie_id) s)
                   = [TmdbRecommendations movie_id]).
    { apply issued_app. reflexivity. }
    rewrite Hlog. split; [ reflexivity |]. split; [ | split; [ reflexivity |] ].
    + split; [ | intros Hlt; apply Hfewer in Hlt; discriminate Hlt ].
      intros Hin. apply list_elem_of_singleton in Hin. discriminate Hin.
    + unfold gather. rewrite (bind_run _ _ _ _ _ Hrun). reflexivity.
Qed.

(** ** At most five entries (C3) *)

Lemma recommendations_unfold w title s first rest movie_id :
  Py.truthy (TMDB_API_KEY w) = true ->
  results (tmdb_search w (Py.quote title)) = Some (first :: rest) ->
  m_id first = Some movie_id ->
  get_recommendations_for_movie w (Some title) s =
  (recommendations <- gather w movie_id ;;
   shuffled <- shuffle w recommendations ;;
   ret (take 5 shuffled)) (asked (TmdbSearch (Py.quote title)) (ticked s)).
Proof.
  intros Hkey Hsearch Hid. unfold get_recommendations_for_movie.
  rewrite Hkey. cbn [negb]. unfold bind at 1, time_time at 1.
  unfold bind at 1, quote_opt at 1, ret at 1.
  unfold bind at 1, fetch at 1.
  rewrite Hsearch, Hid. reflexivity.
Qed.

Lemma recommendations_inv w title s out s' :
  get_recommendations_for_movie w title s = (Ok out, s') ->
  out = [] \/
  exists t first rest movie_id,
    title = Some t /\
    Py.truthy (TMDB_API_KEY w) = true /\
    results (tmdb_search w (Py.quote t)) = Some (first :: rest) /\
    m_id first = Some movie_id.
Proof.
  unfold get_recommendations_for_movie.
  destruct (Py.truthy (TMDB_API_KEY w)) eqn:Hkey; cbn [negb]; [ | discriminate ].
  destruct title as [t|]; [ | discriminate ].
  unfold bind at 1, time_time at 1.
  unfold bind at 1, quote_opt at 1, ret at 1.
  unfold bind at 1, fetch at 1.
  destruct (results (tmdb_search w (Py.quote t))) as [[|first rest]|] eqn:Hsearch.
  1, 3: intros H; injection H as <- _; left; reflexivity.
  destruct (m_id first) as [movie_id|] eqn:Hid; [ | discriminate ].
  intros _. right. exists t, first, rest, movie_id. repeat split; assumption.
Qed.

Lemma pipeline_inv w movie_id s out s' :
  (recommendations <- gather w movie_id ;;
   shuffled <- shuffle w recommendations ;;
   ret (take 5 shuffled)) s = (Ok out, s') ->
  exists collected s1,
    gather w movie_id s = (Ok collected, s1) /\
    (length collected <= 5)%nat /\
    shuffle w collected s1 = (Ok out, s') /\
    out ≡ₚ collected.
Proof.
  intros Hrun.
  apply bind_ok in Hrun as (collected & s1 & Hgather & Hrun).
  apply bind_ok in Hrun as (shuffled & s2 & Hshuffle & Hret).
  injection Hret as <- <-.
  pose proof (gather_length _ _ _ _ _ Hgather) as Hlen.
  destruct (shuffle_loop_run w (length collected - 1) collected s1)
    as (out' & s'' & Hrun' & Hperm).
  unfold shuffle in Hshuffle. rewrite Hrun' in Hshuffle. injection Hshuffle as <- <-.
  assert (Hlen' : (length out' <= 5)%nat) by (rewrite Hperm; exact Hlen).
  rewrite take_ge by exact Hlen'.
  exists collected, s1. repeat split; assumption.
Qed.

(** C3.  Whatever the title and the upstream answers, a list returned
    by the gatherer has at most five entries; and the gatherer does
    return a list when the TMDb credential is set, the title is a
    string, search hits carry an id and upstream movies carry a title. *)
Theorem at_most_five (w : world) (movie_title : option string) (s : state) :
  (forall out s',
     get_recommendations_for_movie w movie_title s = (Ok out, s') ->
     (length out <= 5)%nat) /\
  (Py.truthy (TMDB_API_KEY w) = true ->
   is_Some movie_title ->
   search_hits_identified w ->
   upstream_titled w ->
   exists out s',
     get_recommendations_for_movie w movie_title s = (Ok out, s') /\
     (length out <= 5)%nat).
Proof.
  assert (Hbound : forall out s',
     get_recommendations_for_movie w movie_title s = (Ok out, s') ->
     (length out <= 5)%nat).
  { intros out s' Hrun.
    destruct (recommendations_inv _ _ _ _ _ Hrun)
      as [-> | (t & first & rest & movie_id & -> & Hkey & Hsearch & Hid)];
      [ cbn; lia |].
    rewrite (recommendations_unfold _ _ _ _ _ _ Hkey Hsearch Hid) in Hrun.
    apply pipeline_inv in Hrun as (collected & s1 & _ & Hlen & _ & Hperm).
    rewrite Hperm. exact Hlen. }
  split; [ exact Hbound |].
  intros Hkey [t ->] Hids Htitled.
  assert (Hrun : exists out s',
            get_recommendations_for_movie w (Some t) s = (Ok out, s')).
  { destruct (results (tmdb_search w (Py.quote t))) as [[|first rest]|] eqn:Hsearch.
    1, 3: unfold get_recommendations_for_movie; rewrite Hkey; cbn [negb];
          unfold bind at 1, time_time at 1; unfold bind at 1, quote_opt at 1, ret at 1;
          unfold bind at 1, fetch at 1; rewrite Hsearch; eexists _, _; reflexivity.
    destruct (Hids _ _ _ Hsearch) as [movie_id Hid].
    rewrite (recommendations_unfold _ _ _ _ _ _ Hkey Hsearch Hid).
    destruct (gather_returns w movie_id (asked (TmdbSearch (Py.quote t)) (ticked s)) Htitled)
      as (collected & s1 & Hgather).
    rewrite (bind_run _ _ _ _ _ Hgather).
    destruct (shuffle_loop_run w (length collected - 1) collected s1)
      as (out & s' & Hshuffle & _).
    unfold shuffle. rewrite (bind_run _ _ _ _ _ Hshuffle).
    eexists _, _. reflexivity. }
  destruct Hrun as (out & s' & Hrun).
  exists out, s'. split; [ exact Hrun | exact (Hbound _ _ Hrun) ].
Qed.

Lemma demo_hits_identified : search_hits_identified Demo.w1.
Proof.
  intros query first rest H. cbn in H. injection H as <- _. eexists. reflexivity.
Qed.

Lemma demo_upstream_titled : upstream_titled Demo.w1.
Proof.
  repeat split; intros; cbn; repeat constructor; eexists; reflexivity.
Qed.

Lemma at_most_five_witness :
  exists out s',
    get_recommendations_for_movie Demo.w1 (Some "Alien") init = (Ok out, s') /\
    (length out <= 5)%nat.
Proof.
  destruct (at_most_five Demo.w1 (Some "Alien") init) as (Hbound & Hreturns).
  destruct (Hreturns eq_refl ltac:(eexists; reflexivity)
              demo_hits_identified demo_upstream_titled) as (out & s' & Hrun & _).
  exists out, s'. split; [ exact Hrun | exact (Hbound _ _ Hrun) ].
Defined.

(** ** The order depends on the random state (C7) *)

Lemma shuffle_still w (l : list recommendation) s :
  (length l <= 5)%nat ->
  exists s', shuffle (with_rand w (fun _ => 59%nat)) l s = (Ok l, s').
Proof.
  destruct l as [|a [|b [|c [|d [|e [|f l]]]]]]; intros Hlen;
    [ eexists; reflexivity .. | cbn in Hlen; lia ].
Qed.

Lemma shuffle_rotates w (l : list recommendation) s :
  (length l <= 5)%nat ->
  exists s', shuffle (with_rand w (fun _ => 0%nat)) l s = (Ok (rotated l), s').
Proof.
  destruct l as [|a [|b [|c [|d [|e [|f l]]]]]]; intros Hlen;
    [ eexists; reflexivity .. | cbn in Hlen; lia ].
Qed.

Lemma rotated_perm {A} (l : list A) : rotated l ≡ₚ l.
Proof.
  destruct l as [|a t]; [ reflexivity |].
  unfold rotated. cbn. rewrite take_0. symmetry. apply Permutation_cons_append.
Qed.

Lemma rotated_fixed {A} (t : list A) : forall a,
  t ++ [a] = a :: t -> Forall (fun z => z = a) t.
Proof.
  induction t as [|b t IH]; intros a H; [ constructor |].
  cbn in H. injection H as -> H. constructor; [ reflexivity | apply IH; exact H ].
Qed.

Lemma rotated_differs {A} (l : list A) (x y : A) :
  x ∈ l -> y ∈ l -> x <> y -> l <> rotated l.
Proof.
  intros Hx Hy Hne Heq. destruct l as [|a t]; [ inversion Hx |].
  unfold rotated in Heq. cbn in Heq. rewrite take_0 in Heq.
  symmetry in Heq. apply rotated_fixed in Heq.
  assert (Hall : Forall (fun z => z = a) (a :: t)) by (constructor; [ reflexivity | exact Heq ]).
  rewrite Forall_forall in Hall.
  apply Hne. rewrite (Hall _ Hx), (Hall _ Hy). reflexivity.
Qed.

Lemma gather_with_rand w r movie_id :
  gather (with_rand w r) movie_id = gather w movie_id.
Proof. reflexivity. Qed.

(** C7.  The returned order is not a function of the title and the
    upstream answers: whenever a run returns a list with two distinct
    entries (the returned list is a permutation of the collected one),
    there are two generators for which the runs from the same state,
    with the same configuration, upstream answers and clock, return
    different orderings of the same entries. *)
Theorem order_depends_on_random_state (w : world) (movie_title : option string)
    (s : state) (out : list recommendation) (s' : state) :
  get_recommendations_for_movie w movie_title s = (Ok out, s') ->
  (exists x y, x ∈ out /\ y ∈ out /\ x <> y) ->
  exists r1 r2 out1 out2 s1 s2,
    get_recommendations_for_movie (with_rand w r1) movie_title s = (Ok out1, s1) /\
    get_recommendations_for_movie (with_rand w r2) movie_title s = (Ok out2, s2) /\
    out1 <> out2 /\
    out1 ≡ₚ out2 /\
    out1 ≡ₚ out.
Proof.
  intros Hrun (x & y & Hx & Hy & Hne).
  destruct (recommendations_inv _ _ _ _ _ Hrun)
    as [-> | (t & first & rest & movie_id & -> & Hkey & Hsearch & Hid)];
    [ inversion Hx |].
  rewrite (recommendations_unfold _ _ _ _ _ _ Hkey Hsearch Hid) in Hrun.
  apply pipeline_inv in Hrun as (collected & s0 & Hgather & Hlen & _ & Hperm).
  set (start := asked (TmdbSearch (Py.quote t)) (ticked s)) in *.
  destruct (shuffle_still w collected s0 Hlen) as (s1 & Hstill).
  destruct (shuffle_rotates w collected s0 Hlen) as (s2 & Hrot).
  assert (Hlen' : (length (rotated collected) <= 5)%nat)
    by (rewrite rotated_perm; exact Hlen).
  exists (fun _ => 59%nat), (fun _ => 0%nat), collected, (rotated collected), s1, s2.
  split; [ | split; [ | split; [ | split ] ] ].
  - rewrite (recommendations_unfold (with_rand w _) _ _ _ _ _ Hkey Hsearch Hid).
    fold start. rewrite gather_with_rand, (bind_run _ _ _ _ _ Hgather).
    rewrite (bind_run _ _ _ _ _ Hstill). unfold ret. rewrite take_ge by exact Hlen.
    reflexivity.
  - rewrite (recommendations_unfold (with_rand w _) _ _ _ _ _ Hkey Hsearch Hid).
    fold start. rewrite gather_with_rand, (bind_run _ _ _ _ _ Hgather).
    rewrite (bind_run _ _ _ _ _ Hrot). unfold ret. rewrite take_ge by exact Hlen'.
    reflexivity.
  - apply (rotated_differs collected x y); [ | | exact Hne ];
      rewrite <- Hperm; assumption.
  - symmetry. apply rotated_perm.
  - symmetry. exact Hperm.
Qed.

Lemma order_depends_on_random_state_witness :
  exists r1 r2 out1 out2 s1 s2,
    get_recommendations_for_movie (with_rand Demo.w1 r1) (Some "Alien") init = (Ok out1, s1) /\
    get_recommendations_for_movie (with_rand Demo.w1 r2) (Some "Alien") init = (Ok out2, s2) /\
    out1 <> out2 /\ out1 ≡ₚ out2.
Proof.
  assert (Hrun : exists out s',
            get_recommendations_for_movie Demo.w1 (Some "Alien") init = (Ok out, s') /\
            exists x y, x ∈ out /\ y ∈ out /\ x <> y).
  { eexists _, _. split; [ vm_compute; reflexivity |].
    eexists _, _. split; [ apply list_elem_of_here |].
    split; [ apply list_elem_of_further, list_elem_of_here | discriminate ]. }
  destruct Hrun as (out & s' & Hrun & Hdistinct).
  destruct (order_depends_on_random_state _ _ _ _ _ Hrun Hdistinct)
    as (r1 & r2 & out1 & out2 & s1 & s2 & H1 & H2 & Hne & Hperm & _).
  exists r1, r2, out1, out2, s1, s2. repeat split; assumption.
Defined.

(** ** The resolver's second source (C5) *)

Lemma genre_map_lookup (table : list genre) (i : Z) :
  foldl (fun m g => <[g_id g := g_name g]> m) (∅ : gmap Z string) table !! i
  = g_name <$> find (fun g => g_id g =? i) (rev table).
Proof.
  induction table as [|g table IH] using rev_ind.
  - cbn. apply lookup_empty.
  - rewrite foldl_app, rev_unit. cbn [foldl find].
    destruct (g_id g =? i) eqn:Heq.
    + apply Z.eqb_eq in Heq. rewrite Heq. apply lookup_insert_eq.
    + apply Z.eqb_neq in Heq. rewrite lookup_insert_ne by exact Heq. exact IH.
Qed.

(** Resolving through the dictionary is reading the table. *)
Lemma genre_names_table (gd : genre_data) (ids : list Z) :
  genre_names (genre_map_of gd) ids = map (table_name (default [] (genres gd))) ids.
Proof.
  unfold genre_names, genre_map_of, table_name. apply map_ext. intros i.
  rewrite genre_map_lookup.
  destruct (find _ _); reflexivity.
Qed.

(** C5.  For a title that OMDb does not match and for which the TMDb
    search has a first result, the resolver returns the record mapped
    from that first result: its genre ids are resolved through TMDb's
    genre table (an id without a row reads "Unknown"), it has no director
    field and its external identifier is [None]. *)
Theorem resolver_second_source (w : world) (title : string) (s : state)
    (first : tmdb_movie) (rest : list tmdb_movie) :
  Py.truthy (OMDB_API_KEY w) = true ->
  Py.truthy (TMDB_API_KEY w) = true ->
  o_Response (omdb w (Py.quote title)) <> Some "True" ->
  results (tmdb_search w (Py.quote title)) = Some (first :: rest) ->
  exists md s',
    get_movie_details w title s = (Ok (Some md), s') /\
    md_title md = m_title first /\
    md_year md = Some (year_of (m_release_date first)) /\
    md_plot md = m_overview first /\
    md_poster md = poster_of (m_poster_path first) /\
    md_genres md = map (table_name (default [] (genres (tmdb_genre_list w))))
                       (default [] (m_genre_ids first)) /\
    md_director md = None /\
    md_imdb_id md = None.
Proof.
  intros Homdb Htmdb Hmiss Hhit. unfold get_movie_details.
  rewrite Homdb, Htmdb. cbn [negb orb]. run_goal.
  rewrite bool_decide_eq_false_2 by exact Hmiss.
  rewrite Hhit.
  destruct (m_genre_ids first) as [[|g ids]|] eqn:Hids; run_goal;
    eexists _, _; (split; [ reflexivity |]);
    cbn [md_title md_year md_plot md_poster md_genres md_director md_imdb_id default];
    rewrite ?genre_names_table; repeat split; reflexivity.
Qed.

Lemma resolver_second_source_witness :
  exists md s',
    get_movie_details Demo.w1 "Alien" init = (Ok (Some md), s') /\
    md_genres md = ["Horror"; "Science Fiction"] /\
    md_director md = None /\
    md_imdb_id md = None.
Proof.
  destruct (resolver_second_source Demo.w1 "Alien" init Demo.alien [])
    as (md & s' & Hrun & _ & _ & _ & _ & Hgenres & Hdirector & Hid);
    [ reflexivity | reflexivity | discriminate | reflexivity |].
  exists md, s'. repeat split; assumption.
Defined.

(** ** The fact generator (C8) *)

(** C8.  The fact generator always returns a string and never raises:
    the first fixed string when the language-model client is not
    configured (no call is made), the second fixed string when the call
    raises (or its answer has no usable content), and the stripped
    content of the first choice otherwise. *)
Theorem fact_generator_never_raises (w : world) (movie_title : option string) (s : state) :
  exists fact s',
    generate_interesting_fact w movie_title s = (Ok fact, s') /\
    (Py.truthy (OPENAI_API_KEY w) = false -> fact = fact_unconfigured /\ s' = s) /\
    (Py.truthy (OPENAI_API_KEY w) = true ->
     match chat_completion w "gpt-4-turbo-preview" fact_system_prompt
             (fact_prompt movie_title (seed_in w s)) 100 with
     | LlmRaises _ => fact = fact_failed
     | LlmChoices [] => fact = fact_failed
     | LlmChoices (None :: _) => fact = fact_failed
     | LlmChoices (Some content :: _) => fact = Py.strip content
     end).
Proof.
  unfold generate_interesting_fact.
  destruct (Py.truthy (OPENAI_API_KEY w)) eqn:Hkey; cbn [negb].
  - unfold randint. unfold try_except, bind, randbelow, chat, ret. cbv beta iota.
    change (Z.to_nat (1000 - 1 + 1)) with 1000%nat. fold (seed_in w s).
    destruct (chat_completion w "gpt-4-turbo-preview" fact_system_prompt
                (fact_prompt movie_title (seed_in w s)) 100)
      as [e | [|[content|] choices]];
      cbn [first_content raise ret]; cbv beta iota; eexists _, _; (split; [ reflexivity |]); split; (discriminate || (intros _; reflexivity)).
  - exists fact_unconfigured, s. split; [ reflexivity |].
    split; [ intros _; split; reflexivity | discriminate ].
Qed.

Lemma fact_generator_never_raises_witness :
  let w := Demo.world_of None None None None (LlmRaises (ApiError "rate limit")) in
  exists s', generate_interesting_fact w (Some "Alien") init = (Ok fact_failed, s').
Proof.
  intros w.
  destruct (fact_generator_never_raises w (Some "Alien") init)
    as (fact & s' & Hrun & _ & Hfail).
  specialize (Hfail eq_refl). cbn in Hfail. subst fact.
  exists s'. exact Hrun.
Defined.

(** ** Requests are only ever appended to the log *)

Lemma appends_ret {A} (a : A) : appends (ret a).
Proof. intros s. exists []. cbn. rewrite app_nil_r. reflexivity. Qed.

Lemma appends_raise {A} (e : exn) : appends (@raise A e).
Proof. intros s. exists []. cbn. rewrite app_nil_r. reflexivity. Qed.

Lemma appends_fetch {A} (r : request) (a : A) : appends (fetch r a).
Proof. intros s. exists [r]. reflexivity. Qed.

Lemma appends_time w : appends (time_time w).
Proof. intros s. exists []. cbn. rewrite app_nil_r. reflexivity. Qed.

Lemma appends_randbelow w n : appends (randbelow w n).
Proof. intros s. exists []. cbn. rewrite app_nil_r. reflexivity. Qed.

Lemma appends_bind {A B} (m : M A) (k : A -> M B) :
  appends m -> (forall a, appends (k a)) -> appends (bind m k).
Proof.
  intros Hm Hk s. unfold bind. destruct (Hm s) as (rs & Hrs).
  destruct (m s) as [[a|e] s1]; cbn [snd] in *.
  - destruct (Hk a s1) as (rs' & Hrs'). exists (rs ++ rs').
    rewrite Hrs', Hrs, app_assoc. reflexivity.
  - exists rs. exact Hrs.
Qed.

Lemma appends_try_except {A} (m : M A) (h : exn -> M A) :
  appends m -> (forall e, appends (h e)) -> appends (try_except m h).
Proof.
  intros Hm Hh s. unfold try_except. destruct (Hm s) as (rs & Hrs).
  destruct (m s) as [[a|e] s1]; cbn [snd] in *.
  - exists rs. exact Hrs.
  - destruct (Hh e s1) as (rs' & Hrs'). exists (rs ++ rs').
    rewrite Hrs', Hrs, app_assoc. reflexivity.
Qed.

Lemma appends_chat w model system user max_tokens :
  appends (chat w model system user max_tokens).
Proof.
  intros s. exists [ChatCompletion model system user max_tokens].
  unfold chat. destruct (chat_completion w model system user max_tokens); reflexivity.
Qed.

Create HintDb appends.

#[local] Hint Resolve appends_ret appends_raise appends_fetch appends_time
  appends_randbelow appends_chat : appends.

Ltac appends_tac :=
  repeat first
    [ solve [ auto with appends ]
    | apply appends_bind; [ | intro ]
    | apply appends_try_except; [ | intro ]
    | progress cbv zeta
    | match goal with
      | |- appends (if ?b then _ else _) => destruct b
      | |- appends (match ?x with _ => _ end) => destruct x
      end ].

Lemma appends_randint w a b : appends (randint w a b).
Proof. unfold randint. appends_tac. Qed.

Lemma appends_quote_opt t : appends (quote_opt t).
Proof. unfold quote_opt. appends_tac. Qed.

Lemma appends_first_content choices : appends (first_content choices).
Proof. unfold first_content. appends_tac. Qed.

#[local] Hint Resolve appends_randint appends_quote_opt appends_first_content : appends.

Lemma appends_shuffle_loop {A} w i : forall x : list A, appends (shuffle_loop w i x).
Proof. induction i as [|i IH]; intros x; cbn [shuffle_loop]; appends_tac. Qed.

Lemma appends_primary_loop w genre_map movies :
  forall recs, appends (primary_loop w genre_map movies recs).
Proof.
  induction movies as [|movie rest IH]; intros recs; cbn [primary_loop]; appends_tac.
Qed.

Lemma appends_fallback_loop w genre_map movies :
  forall recs, appends (fallback_loop w genre_map movies recs).
Proof.
  induction movies as [|movie rest IH]; intros recs; cbn [fallback_loop]; appends_tac.
Qed.

#[local] Hint Resolve appends_shuffle_loop appends_primary_loop appends_fallback_loop
  : appends.

Lemma appends_recommendations w movie_title :
  appends (get_recommendations_for_movie w movie_title).
Proof.
  unfold get_recommendations_for_movie, gather, fetch_candidates, primary_stage,
    fallback_stage, shuffle.
  appends_tac.
Qed.

Lemma appends_fact w movie_title : appends (generate_interesting_fact w movie_title).
Proof. unfold generate_interesting_fact. appends_tac. Qed.

#[local] Hint Resolve appends_recommendations appends_fact : appends.

Lemma appends_answer_movie w request_id md : appends (answer_movie w request_id md).
Proof. unfold answer_movie. appends_tac. Qed.

Lemma appends_answer_general w request_id query :
  appends (answer_general w request_id query).
Proof. unfold answer_general. appends_tac. Qed.

(** With both credentials set, the first request of the resolver is the
    OMDb lookup of the title. *)
Lemma movie_details_first_request w title s :
  Py.truthy (OMDB_API_KEY w) = true ->
  Py.truthy (TMDB_API_KEY w) = true ->
  exists rs,
    log (snd (get_movie_details w title s)) = log s ++ OmdbByTitle (Py.quote title) :: rs.
Proof.
  intros Homdb Htmdb. unfold get_movie_details. rewrite Homdb, Htmdb. cbn [negb orb].
  match goal with
  | |- context [bind (fetch ?r ?a) ?k] =>
      assert (Hk : appends (k a)) by (cbv beta; appends_tac);
      destruct (Hk (asked r s)) as (rs & Hrs); exists rs
  end.
  unfold bind at 1, fetch at 1. fold (asked (OmdbByTitle (Py.quote title)) s).
  rewrite Hrs. cbn [asked log]. rewrite <- app_assoc. reflexivity.
Qed.

(** ** The lookup decision of the oracle (C9) *)

(** [startswith] and [in] as equations between strings. *)
Lemma startswith_spec (p s : string) :
  Py.startswith p s = true <-> exists rest, s = p +:+ rest.
Proof.
  revert s. induction p as [|a p IH]; intros s.
  - cbn. split; [ intros _; exists s; reflexivity | reflexivity ].
  - destruct s as [|b s]; cbn [Py.startswith].
    + split; [ discriminate | intros (rest & H); discriminate H ].
    + destruct (Ascii.eqb a b) eqn:Hab.
      * apply Ascii.eqb_eq in Hab as ->. rewrite IH.
        split; intros (rest & H); exists rest.
        -- rewrite H. reflexivity.
        -- cbn in H. injection H as ->. reflexivity.
      * split; [ discriminate |]. intros (rest & H). cbn in H.
        injection H as -> _. rewrite Ascii.eqb_refl in Hab. discriminate Hab.
Qed.

Lemma contains_skip (sub a s : string) :
  Py.contains sub s = true -> Py.contains sub (a +:+ s) = true.
Proof.
  intros H. induction a as [|c a IH]; [ exact H |].
  change (String c a +:+ s) with (String c (a +:+ s)). cbn [Py.contains]. rewrite IH. apply orb_true_r.
Qed.

Lemma contains_spec (sub s : string) :
  Py.contains sub s = true <-> exists pre post, s = pre +:+ sub +:+ post.
Proof.
  split.
  - induction s as [|c s IH]; cbn [Py.contains]; rewrite orb_true_iff.
    + intros [H | H]; [ | discriminate H ].
      apply startswith_spec in H as (rest & H). exists EmptyString, rest. exact H.
    + intros [H | H].
      * apply startswith_spec in H as (rest & H). exists EmptyString, rest. exact H.
      * destruct (IH H) as (pre & post & ->). exists (String c pre), post. reflexivity.
  - intros (pre & post & ->). apply contains_skip.
    assert (H : Py.startswith sub (sub +:+ post) = true)
      by (apply startswith_spec; exists post; reflexivity).
    destruct (sub +:+ post); cbn [Py.contains]; rewrite H; reflexivity.
Qed.

Lemma movie_like_test (query : string) :
  (length (Py.split_ws query) <? 5)%nat
  || existsb (fun keyword => Py.contains keyword (Py.lower query)) keywords = true
  <->
  (length (Py.split_ws query) < 5)%nat \/
  exists keyword pre post,
    keyword ∈ ["movie"; "film"; "watch"; "see"; "about"] /\
    Py.lower query = pre +:+ keyword +:+ post.
Proof.
  rewrite orb_true_iff, Nat.ltb_lt, existsb_exists.
  split; (intros [Hwords | Hkey]; [ left; exact Hwords | right ]).
  - destruct Hkey as (keyword & Hin & Hsub).
    apply contains_spec in Hsub as (pre & post & Heq).
    exists keyword, pre, post. split; [ apply list_elem_of_In; exact Hin | exact Heq ].
  - destruct Hkey as (keyword & pre & post & Hin & Heq).
    exists keyword. split; [ apply list_elem_of_In; exact Hin |].
    apply contains_spec. exists pre, post. exact Heq.
Qed.

Lemma potential_title_first_prefix (query : string) (ps : list string) :
  potential_title_loop query ps =
  match find (fun prefix => Py.startswith prefix (Py.lower query)) ps with
  | Some prefix => Py.strip (Py.drop (String.length prefix) query)
  | None => query
  end.
Proof.
  induction ps as [|prefix ps IH]; [ reflexivity |]. cbn [potential_title_loop find].
  destruct (Py.startswith prefix (Py.lower query)); [ reflexivity | exact IH ].
Qed.

Lemma try_none_log {A} (m : M (option A)) (s : state) :
  log (snd (try_except m (fun _ : exn => ret (@None A)) s)) = log (snd (m s)).
Proof.
  unfold try_except. destruct (m s) as [[a|e] s1]; reflexivity.
Qed.

Lemma bind_log {A B} (m : M A) (k : A -> M B) (s : state) :
  (forall a, appends (k a)) ->
  exists rs, log (snd (bind m k s)) = log (snd (m s)) ++ rs.
Proof.
  intros Hk. unfold bind. destruct (m s) as [[a|e] s1]; cbn [snd].
  - apply Hk.
  - exists []. rewrite app_nil_r. reflexivity.
Qed.

Lemma answer_general_log w request_id query s :
  log (snd (answer_general w request_id query s)) =
  log s ++ (if Py.truthy (OPENAI_API_KEY w)
            then [ChatCompletion "gpt-4-turbo-preview" HORROR_ORACLE_PROMPT query 300]
            else []).
Proof.
  unfold answer_general. destruct (Py.truthy (OPENAI_API_KEY w)); cbn [negb].
  - unfold try_except, bind, chat.
    destruct (chat_completion w "gpt-4-turbo-preview" HORROR_ORACLE_PROMPT query 300)
      as [e | [|[content|] choices]]; reflexivity.
  - cbn. rewrite app_nil_r. reflexivity.
Qed.

Lemma ask_oracle_unfold w query s :
  query <> EmptyString ->
  ask_oracle w query s =
  (movie_details <- lookup_movie w query ;;
   match movie_details with
   | Some md => answer_movie w (request_id_in w s) md
   | None => answer_general w (request_id_in w s) query
   end) (deciding s).
Proof.
  intros Hne. unfold ask_oracle.
  destruct query as [|c query]; [ congruence |]. cbn [Py.truthy_str negb].
  reflexivity.
Qed.

(** The title that the loop over the prefixes leaves, prefix by prefix. *)
Lemma potential_title_cases (query : string) :
  let starts (prefix : string) := exists rest, Py.lower query = prefix +:+ rest in
  let without (prefix : string) := Py.strip (Py.drop (String.length prefix) query) in
  let candidate := potential_title_loop query prefixes in
  (starts "tell me about" -> candidate = without "tell me about") /\
  (starts "what is" -> candidate = without "what is") /\
  (starts "do you know" -> candidate = without "do you know") /\
  (starts "have you seen" -> candidate = without "have you seen") /\
  (~ starts "tell me about" -> ~ starts "what is" ->
   ~ starts "do you know" -> ~ starts "have you seen" -> candidate = query).
Proof.
  intros starts without candidate. subst candidate.
  rewrite potential_title_first_prefix. unfold prefixes. cbn [find].
  repeat split.
  1-4: intros (rest & Hrest); rewrite Hrest; reflexivity.
  intros H1 H2 H3 H4.
  repeat match goal with
  | |- context [Py.startswith ?p (Py.lower query)] =>
      let E := fresh "E" in
      destruct (Py.startswith p (Py.lower query)) eqn:E;
      [ exfalso; apply startswith_spec in E;
        first [ exact (H1 E) | exact (H2 E) | exact (H3 E) | exact (H4 E) ] |]
  end.
  reflexivity.
Qed.

(** C9.  For a non-empty query of ASCII text, call it movie-like when it
    splits into fewer than five words or its lower-cased text contains
    one of "movie", "film", "watch", "see", "about".  The candidate
    title is what is left of the query after the prefix "tell me about",
    "what is", "do you know" or "have you seen" that starts its
    lower-cased text, blanks stripped, and the query itself when none
    does.  A movie-like query is looked up under the candidate title:
    with both credentials set, the first request the handler issues is
    the OMDb lookup of that title.  Any other query goes to the general
    responder and no metadata request is issued. *)
Theorem oracle_lookup_decision (w : world) (query : string) (s : state) :
  query <> EmptyString ->
  Py.isascii query = true ->
  let text := Py.lower query in
  let movie_like :=
    (length (Py.split_ws query) < 5)%nat \/
    exists keyword pre post,
      keyword ∈ ["movie"; "film"; "watch"; "see"; "about"] /\
      text = pre +:+ keyword +:+ post in
  let starts (prefix : string) := exists rest, text = prefix +:+ rest in
  let without (prefix : string) := Py.strip (Py.drop (String.length prefix) query) in
  let after := snd (ask_oracle w query s) in
  exists candidate,
    ((starts "tell me about" -> candidate = without "tell me about") /\
     (starts "what is" -> candidate = without "what is") /\
     (starts "do you know" -> candidate = without "do you know") /\
     (starts "have you seen" -> candidate = without "have you seen") /\
     (~ starts "tell me about" -> ~ starts "what is" ->
      ~ starts "do you know" -> ~ starts "have you seen" -> candidate = query)) /\
    (movie_like ->
     (forall s0, lookup_movie w query s0 =
                 try_except (get_movie_details w candidate) (fun _ => ret None) s0) /\
     (Py.truthy (OMDB_API_KEY w) = true ->
      Py.truthy (TMDB_API_KEY w) = true ->
      exists rest, issued s after = OmdbByTitle (Py.quote candidate) :: rest)) /\
    (~ movie_like ->
     (forall s0, lookup_movie w query s0 = (Ok None, s0)) /\
     ask_oracle w query s = answer_general w (request_id_in w s) query (deciding s) /\
     issued s after =
       if Py.truthy (OPENAI_API_KEY w)
       then [ChatCompletion "gpt-4-turbo-preview" HORROR_ORACLE_PROMPT query 300]
       else []).
Proof.
  intros Hne Hascii text movie_like starts without after.
  pose proof (ask_oracle_unfold w query s Hne) as Hask.
  exists (potential_title_loop query prefixes).
  split; [ exact (potential_title_cases query) |].
  split.
  - intros Hlike. apply movie_like_test in Hlike.
    assert (Hlookup : forall s0, lookup_movie w query s0 =
              try_except (get_movie_details w (potential_title_loop query prefixes))
                         (fun _ => ret None) s0).
    { intros s0. unfold lookup_movie. cbv zeta. rewrite Hlike. reflexivity. }
    split; [ exact Hlookup |]. intros Homdb Htmdb.
    destruct (movie_details_first_request w (potential_title_loop query prefixes)
                (deciding s) Homdb Htmdb) as (rs & Hrs).
    match type of Hask with
    | _ = bind ?m ?k _ =>
        destruct (bind_log m k (deciding s)) as (rs' & Hrs')
    end.
    { intros [md|]; [ apply appends_answer_movie | apply appends_answer_general ]. }
    exists (rs ++ rs'). apply issued_app. subst after.
    rewrite Hask, Hrs', Hlookup.
    rewrite try_none_log, Hrs.
    cbn [deciding log]. rewrite <- app_assoc. reflexivity.
  - intros Hnot.
    assert (Htest : (length (Py.split_ws query) <? 5)%nat
              || existsb (fun keyword => Py.contains keyword (Py.lower query)) keywords
              = false).
    { destruct (_ || _) eqn:Htest; [ | reflexivity ].
      exfalso. apply Hnot, movie_like_test, Htest. }
    assert (Hlookup : forall s0, lookup_movie w query s0 = (Ok None, s0)).
    { intros s0. unfold lookup_movie. cbv zeta. rewrite Htest. reflexivity. }
    assert (Hgeneral : ask_oracle w query s =
              answer_general w (request_id_in w s) query (deciding s)).
    { rewrite Hask. unfold bind. rewrite Hlookup. reflexivity. }
    split; [ exact Hlookup |]. split; [ exact Hgeneral |].
    apply issued_app. subst after. rewrite Hgeneral, answer_general_log. reflexivity.
Qed.

(** Three queries: eight words of which one contains "see", looked up
    without its prefix; one word and no keyword, looked up as it is, blank
    included; seven words and no keyword, not looked up. *)
Lemma oracle_lookup_decision_witness :
  ((length (Py.split_ws "Have you seen the thing from another world") = 8)%nat /\
   exists rest,
     issued init (snd (ask_oracle Demo.w1 "Have you seen the thing from another world" init))
     = OmdbByTitle "the%20thing%20from%20another%20world" :: rest) /\
  ((forall keyword, keyword ∈ keywords -> Py.contains keyword (Py.lower " Alien") = false) /\
   exists rest,
     issued init (snd (ask_oracle Demo.w1 " Alien" init)) = OmdbByTitle "%20Alien" :: rest) /\
  issued init (snd (ask_oracle Demo.w1 "which director made the best slasher ever" init))
  = [ChatCompletion "gpt-4-turbo-preview" HORROR_ORACLE_PROMPT
       "which director made the best slasher ever" 300].
Proof.
  split; [ | split ].
  - split; [ reflexivity |].
    destruct (oracle_lookup_decision Demo.w1 "Have you seen the thing from another world"
                init ltac:(discriminate) eq_refl)
      as (candidate & (_ & _ & _ & Hseen & _) & Hlike & _).
    rewrite Hseen in Hlike by (exists " the thing from another world"; reflexivity).
    apply Hlike; [ right | reflexivity | reflexivity ].
    exists "see", "have you ", "n the thing from another world".
    split; [ | reflexivity ].
    do 3 apply list_elem_of_further. apply list_elem_of_here.
  - split.
    { intros keyword Hin.
      repeat (apply elem_of_cons in Hin as [-> | Hin]; [ reflexivity |]).
      inversion Hin. }
    destruct (oracle_lookup_decision Demo.w1 " Alien" init ltac:(discriminate) eq_refl)
      as (candidate & (_ & _ & _ & _ & Hnone) & Hlike & _).
    rewrite Hnone in Hlike
      by (intros (rest & H); vm_compute in H; discriminate H).
    apply Hlike; [ left; vm_compute; lia | reflexivity | reflexivity ].
  - destruct (oracle_lookup_decision Demo.w1
                "which director made the best slasher ever" init ltac:(discriminate) eq_refl)
      as (candidate & _ & _ & Hgeneral).
    destruct Hgeneral as (_ & _ & Hlog); [ | exact Hlog ].
    intros [Hwords | (keyword & pre & post & Hin & Heq)].
    + vm_compute in Hwords. lia.
    + assert (Hsub : Py.contains keyword
                       (Py.lower "which director made the best slasher ever") = true)
        by (apply contains_spec; exists pre, post; exact Heq).
      repeat (apply elem_of_cons in Hin as [-> | Hin]; [ discriminate Hsub |]).
      inversion Hin.
Defined.

(** ** The release feed (C2) *)





(** * Further properties of the code *)

(** ** The resolver *)

(** X1.  When OMDb reports a match, the resolver answers from OMDb
    alone: every field of the record is OMDb's (the genres are its
    comma-separated list, split), the director field is present, and the
    OMDb lookup is the only request, so TMDb is never asked. *)
Theorem resolver_first_source (w : world) (title : string) (s : state) :
  Py.truthy (OMDB_API_KEY w) = true ->
  Py.truthy (TMDB_API_KEY w) = true ->
  o_Response (omdb w (Py.quote title)) = Some "True" ->
  let found := omdb w (Py.quote title) in
  exists md s',
    get_movie_details w title s = (Ok (Some md), s') /\
    issued s s' = [OmdbByTitle (Py.quote title)] /\
    md_title md = o_Title found /\
    md_year md = o_Year found /\
    md_director md = Some (o_Director found) /\
    md_plot md = o_Plot found /\
    md_poster md = o_Poster found /\
    md_imdb_id md = o_imdbID found /\
    md_genres md = Py.split ", " (default EmptyString (o_Genre found)).
Proof.
  intros Homdb Htmdb Hhit found. unfold get_movie_details.
  rewrite Homdb, Htmdb. cbn [negb orb]. run_goal. fold found.
  rewrite bool_decide_eq_true_2 by exact Hhit.
  eexists _, _. split; [ reflexivity |].
  split; [ apply issued_app; reflexivity |].
  repeat split; reflexivity.
Qed.

Lemma resolver_first_source_witness :
  exists md s',
    get_movie_details Demo.w_omdb "Alien" init = (Ok (Some md), s') /\
    md_director md = Some (Some "Ridley Scott") /\
    md_genres md = ["Horror"; "Sci-Fi"].
Proof.
  destruct (resolver_first_source Demo.w_omdb "Alien" init eq_refl eq_refl eq_refl)
    as (md & s' & Hrun & _ & _ & _ & Hdirector & _ & _ & _ & Hgenres).
  exists md, s'. split; [ exact Hrun |]. split; [ exact Hdirector | exact Hgenres ].
Defined.

Lemma resolver_run w title s :
  Py.truthy (OMDB_API_KEY w) = true ->
  Py.truthy (TMDB_API_KEY w) = true ->
  o_Response (omdb w (Py.quote title)) <> Some "True" ->
  get_movie_details w title s =
  match results (tmdb_search w (Py.quote title)) with
  | Some (result :: _) =>
      let genres :=
        genre_names (genre_map_of (tmdb_genre_list w)) (default [] (m_genre_ids result)) in
      (Ok (Some {| md_title := m_title result;
                   md_year := Some (year_of (m_release_date result));
                   md_director := None;
                   md_plot := m_overview result;
                   md_poster := poster_of (m_poster_path result);
                   md_imdb_id := None;
                   md_genres := genres |}),
       if truthy_list (m_genre_ids result)
       then asked TmdbGenreList
              (asked (TmdbSearch (Py.quote title)) (asked (OmdbByTitle (Py.quote title)) s))
       else asked (TmdbSearch (Py.quote title)) (asked (OmdbByTitle (Py.quote title)) s))
  | _ => (Ok None, asked (TmdbSearch (Py.quote title)) (asked (OmdbByTitle (Py.quote title)) s))
  end.
Proof.
  intros Homdb Htmdb Hmiss. unfold get_movie_details.
  rewrite Homdb, Htmdb. cbn [negb orb]. run_goal.
  rewrite bool_decide_eq_false_2 by exact Hmiss.
  destruct (results (tmdb_search w (Py.quote title))) as [[|result rest]|];
    try reflexivity.
  destruct (m_genre_ids result) as [[|g ids]|]; reflexivity.
Qed.

(** X2.  "Not found" is the answer of the resolver exactly when OMDb
    answers without a match and the TMDb search answers without a
    result.  After those two answers it returns [None], having made the
    two requests and no other, OMDb first; and whenever it returns
    [None], those were the answers and those the requests. *)
Theorem resolver_not_found (w : world) (title : string) (s : state) :
  Py.truthy (OMDB_API_KEY w) = true ->
  Py.truthy (TMDB_API_KEY w) = true ->
  let q := Py.quote title in
  (forall found page,
     omdb w q = found ->
     tmdb_search w q = page ->
     o_Response found <> Some "True" ->
     truthy_list (results page) = false ->
     get_movie_details w title s
     = (Ok None, asked (TmdbSearch q) (asked (OmdbByTitle q) s))) /\
  (forall s',
     get_movie_details w title s = (Ok None, s') ->
     o_Response (omdb w q) <> Some "True" /\
     truthy_list (results (tmdb_search w q)) = false /\
     issued s s' = [OmdbByTitle q; TmdbSearch q]).
Proof.
  intros Homdb Htmdb q. split.
  - intros found page <- <- Hmiss Hempty.
    rewrite (resolver_run w title s Homdb Htmdb Hmiss). fold q.
    destruct (results (tmdb_search w q)) as [[|result rest]|];
      [ reflexivity | discriminate Hempty | reflexivity ].
  - intros s' Hrun.
    destruct (decide (o_Response (omdb w q) = Some "True")) as [Hhit | Hmiss].
    + unfold get_movie_details in Hrun. rewrite Homdb, Htmdb in Hrun.
      cbn [negb orb] in Hrun. run_in Hrun. fold q in Hrun.
      rewrite bool_decide_eq_true_2 in Hrun by exact Hhit. discriminate Hrun.
    + rewrite (resolver_run w title s Homdb Htmdb Hmiss) in Hrun. fold q in Hrun.
      split; [ exact Hmiss |].
      destruct (results (tmdb_search w q)) as [[|result rest]|];
        [ | destruct (truthy_list (m_genre_ids result)); discriminate Hrun | ];
        injection Hrun as <-;
        (split; [ reflexivity |]);
        apply issued_app; cbn; rewrite <- app_assoc; reflexivity.
Qed.

Lemma resolver_not_found_witness :
  get_movie_details Demo.w_unknown "zzzz" init
  = (Ok None, State [OmdbByTitle "zzzz"; TmdbSearch "zzzz"] 0 0).
Proof.
  destruct (resolver_not_found Demo.w_unknown "zzzz" init eq_refl eq_refl) as (Hnone & _).
  apply (Hnone Demo.no_match (TmdbPage (Some []))); [ reflexivity | reflexivity | | reflexivity ].
  discriminate.
Defined.

(** X3.  TMDb is consulted only after an OMDb miss, and its genre table
    only for a first hit that lists a genre id: with both credentials
    set the resolver makes one, two or three requests, always in the
    order OMDb, TMDb search, TMDb genre list. *)
Theorem resolver_request_order (w : world) (title : string) (s : state) :
  Py.truthy (OMDB_API_KEY w) = true ->
  Py.truthy (TMDB_API_KEY w) = true ->
  let q := Py.quote title in
  let missed := negb (bool_decide (o_Response (omdb w q) = Some "True")) in
  let tagged :=
    match results (tmdb_search w q) with
    | Some (result :: _) => truthy_list (m_genre_ids result)
    | _ => false
    end in
  issued s (snd (get_movie_details w title s)) =
  OmdbByTitle q ::
  (if missed then TmdbSearch q :: (if tagged then [TmdbGenreList] else []) else []).
Proof.
  intros Homdb Htmdb q missed tagged. apply issued_app.
  subst missed. destruct (decide (o_Response (omdb w q) = Some "True")) as [Hhit | Hmiss].
  - rewrite bool_decide_eq_true_2 by exact Hhit. cbn [negb].
    unfold get_movie_details. rewrite Homdb, Htmdb. cbn [negb orb]. run_goal. fold q.
    rewrite bool_decide_eq_true_2 by exact Hhit. reflexivity.
  - rewrite bool_decide_eq_false_2 by exact Hmiss. cbn [negb].
    rewrite (resolver_run w title s Homdb Htmdb Hmiss). fold q. subst tagged.
    destruct (results (tmdb_search w q)) as [[|result rest]|];
      [ | destruct (truthy_list (m_genre_ids result)) | ];
      cbn; rewrite <- ?app_assoc; reflexivity.
Qed.

Lemma resolver_request_order_witness :
  issued init (snd (get_movie_details Demo.w1 "Alien" init))
  = [OmdbByTitle "Alien"; TmdbSearch "Alien"; TmdbGenreList].
Proof.
  exact (resolver_request_order Demo.w1 "Alien" init eq_refl eq_refl).
Defined.

(** X4.  Each lookup function checks its credentials before anything
    else: with a credential missing or empty it raises its configuration
    error without a request, a clock read or a draw.  The resolver needs
    both the OMDb and the TMDb credential, the gatherer and the release
    feed the TMDb one. *)
Theorem credentials_checked_first (w : world) (s : state) :
  (Py.truthy (OMDB_API_KEY w) = false \/ Py.truthy (TMDB_API_KEY w) = false ->
   forall title,
     get_movie_details w title s
     = (Raise (Exception "OMDb or TMDb API key is not set."), s)) /\
  (Py.truthy (TMDB_API_KEY w) = false ->
   (forall movie_title,
      get_recommendations_for_movie w movie_title s
      = (Raise (Exception "TMDb API key is not set."), s)) /\
   (forall limit,
      get_recent_horror_releases w limit s
      = (Raise (Exception "TMDb API key is not set."), s))).
Proof.
  split.
  - intros Hmissing title. unfold get_movie_details.
    destruct Hmissing as [-> | ->]; [ | rewrite orb_true_r ]; reflexivity.
  - intros Hmissing. split; intros x.
    + unfold get_recommendations_for_movie. rewrite Hmissing. reflexivity.
    + unfold get_recent_horror_releases. rewrite Hmissing. reflexivity.
Qed.

Lemma credentials_checked_first_witness :
  get_movie_details Demo.w_nokey "Alien" init
  = (Raise (Exception "OMDb or TMDb API key is not set."), init) /\
  get_recent_horror_releases Demo.w_nokey 5 init
  = (Raise (Exception "TMDb API key is not set."), init).
Proof.
  destruct (credentials_checked_first Demo.w_nokey init) as (Hresolver & Hrest).
  split; [ apply Hresolver; right; reflexivity |].
  apply (Hrest eq_refl).
Defined.

(** ** What the stages request and draw *)

Lemma requests_nothing_bind {A B} (m : M A) (k : A -> M B) :
  requests_nothing m -> (forall a, requests_nothing (k a)) -> requests_nothing (bind m k).
Proof.
  intros Hm Hk s. unfold bind. specialize (Hm s).
  destruct (m s) as [[a|e] s1]; cbn [snd] in *; [ rewrite Hk | ]; exact Hm.
Qed.

Lemma draws_nothing_bind {A B} (m : M A) (k : A -> M B) :
  draws_nothing m -> (forall a, draws_nothing (k a)) -> draws_nothing (bind m k).
Proof.
  intros Hm Hk s. unfold bind. specialize (Hm s).
  destruct (m s) as [[a|e] s1]; cbn [snd] in *; [ rewrite Hk | ]; exact Hm.
Qed.

Lemma requests_nothing_ret {A} (a : A) : requests_nothing (ret a).
Proof. intros s. reflexivity. Qed.

Lemma requests_nothing_raise {A} (e : exn) : requests_nothing (@raise A e).
Proof. intros s. reflexivity. Qed.

Lemma requests_nothing_time w : requests_nothing (time_time w).
Proof. intros s. reflexivity. Qed.

Lemma requests_nothing_randbelow w n : requests_nothing (randbelow w n).
Proof. intros s. reflexivity. Qed.

Lemma requests_nothing_quote_opt t : requests_nothing (quote_opt t).
Proof. intros s. destruct t; reflexivity. Qed.

Lemma draws_nothing_ret {A} (a : A) : draws_nothing (ret a).
Proof. intros s. reflexivity. Qed.

Lemma draws_nothing_raise {A} (e : exn) : draws_nothing (@raise A e).
Proof. intros s. reflexivity. Qed.

Lemma draws_nothing_time w : draws_nothing (time_time w).
Proof. intros s. reflexivity. Qed.

Lemma draws_nothing_fetch {A} (r : request) (a : A) : draws_nothing (fetch r a).
Proof. intros s. reflexivity. Qed.

Lemma draws_nothing_quote_opt t : draws_nothing (quote_opt t).
Proof. intros s. destruct t; reflexivity. Qed.

Create HintDb quiet.

#[local] Hint Resolve requests_nothing_ret requests_nothing_raise requests_nothing_time
  requests_nothing_randbelow requests_nothing_quote_opt
  draws_nothing_ret draws_nothing_raise draws_nothing_time draws_nothing_fetch
  draws_nothing_quote_opt : quiet.

Ltac quiet_tac :=
  repeat first
    [ solve [ auto with quiet ]
    | apply requests_nothing_bind; [ | intro ]
    | apply draws_nothing_bind; [ | intro ]
    | progress cbv zeta
    | match goal with
      | |- requests_nothing (if ?b then _ else _) => destruct b
      | |- requests_nothing (match ?x with _ => _ end) => destruct x
      | |- draws_nothing (if ?b then _ else _) => destruct b
      | |- draws_nothing (match ?x with _ => _ end) => destruct x
      end ].

Lemma fallback_loop_requests_nothing w genre_map movies :
  forall recs, requests_nothing (fallback_loop w genre_map movies recs).
Proof.
  induction movies as [|movie rest IH]; intros recs; cbn [fallback_loop]; quiet_tac.
Qed.

Lemma shuffle_loop_requests_nothing {A} w i :
  forall x : list A, requests_nothing (shuffle_loop w i x).
Proof. induction i as [|i IH]; intros x; cbn [shuffle_loop]; quiet_tac. Qed.

Lemma primary_loop_draws_nothing w genre_map movies :
  forall recs, draws_nothing (primary_loop w genre_map movies recs).
Proof.
  induction movies as [|movie rest IH]; intros recs; cbn [primary_loop]; quiet_tac.
Qed.

Lemma fallback_loop_draws_nothing w genre_map movies :
  forall recs, draws_nothing (fallback_loop w genre_map movies recs).
Proof.
  induction movies as [|movie rest IH]; intros recs; cbn [fallback_loop]; quiet_tac.
Qed.

#[local] Hint Resolve primary_loop_draws_nothing fallback_loop_draws_nothing : quiet.

Lemma gather_draws_nothing w movie_id : draws_nothing (gather w movie_id).
Proof.
  unfold gather, fetch_candidates, primary_stage, fallback_stage. quiet_tac.
Qed.

(** The shuffle of a list reads one draw per position but the first. *)
Lemma shuffle_loop_draws {A} w i : forall (x : list A) s,
  rand_reads (snd (shuffle_loop w i x s)) = (rand_reads s + i)%nat.
Proof.
  induction i as [|i IH]; intros x s; cbn [shuffle_loop].
  - cbn. lia.
  - unfold bind, randbelow. rewrite IH. cbn [rand_reads]. lia.
Qed.

(** The requests of a successful collection, in order. *)
Lemma gather_requests w movie_id s out s' :
  gather w movie_id s = (Ok out, s') ->
  let rec_data := tmdb_recommendations w movie_id in
  let similar_data := tmdb_similar w movie_id in
  let fewer := (length (page_movies rec_data) <? 3)%nat in
  let pool := if fewer && truthy_list (results similar_data)
              then similar_data else rec_data in
  let chosen := take 5 (List.filter (keeps (genre_map_of (tmdb_genre_list w)))
                                    (take 10 (page_movies pool))) in
  log s' = log s ++
    TmdbRecommendations movie_id :: (if fewer then [TmdbSimilar movie_id] else []) ++
    TmdbGenreList :: map (fun m => TmdbMovieDetails (m_id m)) chosen ++
    (if (length chosen <? 3)%nat then [TmdbDiscoverPopular] else []).
Proof.
  intros Hrun rec_data similar_data fewer pool chosen.
  unfold gather in Hrun.
  apply bind_ok in Hrun as (pool' & s1 & Hfetch & Hrun).
  apply bind_ok in Hrun as (genre_data & s2 & Hgenres & Hrun).
  cbv zeta in Hrun.
  apply bind_ok in Hrun as (recs & s3 & Hprimary & Hfallback).
  unfold fetch in Hgenres. injection Hgenres as <- <-.
  rewrite primary_stage_unfold in Hprimary.
  destruct (primary_loop_ok _ _ _ _ _ _ _ Hprimary) as (added & -> & Hall & Hlog);
    [ cbn; lia |].
  cbn [app length] in Hall, Hlog, Hfallback. rewrite Nat.sub_0_r in Hall, Hlog.
  apply Forall2_length in Hall.
  rewrite fetch_candidates_run in Hfetch. fold rec_data similar_data fewer in Hfetch.
  assert (Hpool : pool' = pool /\
            log s1 = log s ++ TmdbRecommendations movie_id
                           :: (if fewer then [TmdbSimilar movie_id] else [])).
  { subst pool. destruct fewer; injection Hfetch as <- <-; cbn [andb asked log];
      rewrite <- ?app_assoc; split; reflexivity. }
  destruct Hpool as (-> & Hlog1). fold chosen in Hall, Hlog.
  assert (Hlast : log s' = log s3 ++
            (if (length chosen <? 3)%nat then [TmdbDiscoverPopular] else [])).
  { rewrite Hall. destruct (length added <? 3)%nat eqn:Hfew.
    - apply Nat.ltb_lt in Hfew. rewrite fallback_stage_unfold in Hfallback by exact Hfew.
      pose proof (fallback_loop_requests_nothing w (genre_map_of (tmdb_genre_list w))
                    (take 5 (page_movies (tmdb_discover_popular w))) added
                    (asked TmdbDiscoverPopular s3)) as Hquiet.
      rewrite Hfallback in Hquiet. exact Hquiet.
    - apply Nat.ltb_ge in Hfew. rewrite fallback_stage_skipped in Hfallback by exact Hfew.
      injection Hfallback as _ <-. rewrite app_nil_r. reflexivity. }
  rewrite Hlast, Hlog. cbn [log]. rewrite Hlog1.
  rewrite <- !app_assoc. cbn [app]. rewrite <- ?app_assoc. reflexivity.
Qed.

(** ** The gatherer *)

(** X5.  A title that the TMDb search does not find gives the empty
    list, not an error: the search is the only request, nothing is
    drawn and nothing is shuffled. *)
Theorem gatherer_no_match (w : world) (title : string) (s : state) :
  Py.truthy (TMDB_API_KEY w) = true ->
  truthy_list (results (tmdb_search w (Py.quote title))) = false ->
  exists s',
    get_recommendations_for_movie w (Some title) s = (Ok [], s') /\
    issued s s' = [TmdbSearch (Py.quote title)] /\
    rand_reads s' = rand_reads s.
Proof.
  intros Hkey Hnone. unfold get_recommendations_for_movie. rewrite Hkey. cbn [negb].
  unfold bind at 1, time_time at 1. unfold bind at 1, quote_opt at 1, ret at 1.
  unfold bind at 1, fetch at 1.
  destruct (results (tmdb_search w (Py.quote title))) as [[|first rest]|];
    [ | discriminate Hnone | ];
    eexists; (split; [ reflexivity |]); (split; [ apply issued_app |]); reflexivity.
Qed.

Lemma gatherer_no_match_witness :
  exists s',
    get_recommendations_for_movie Demo.w_unknown (Some "zzzz") init = (Ok [], s') /\
    issued init s' = [TmdbSearch "zzzz"].
Proof.
  destruct (gatherer_no_match Demo.w_unknown "zzzz" init eq_refl eq_refl)
    as (s' & Hrun & Hlog & _).
  exists s'. split; [ exact Hrun | exact Hlog ].
Defined.



(** X7.  A successful run of the gatherer for a title that the search
    finds makes at most nine requests, in this order: the search, the
    recommendations list, the similar list when the former has fewer
    than three entries, the genre table, the details of each candidate
    it keeps (at most five) and, when it kept fewer than three, the
    popular list. *)
Theorem gatherer_requests (w : world) (title : string) (s : state)
    (first : tmdb_movie) (rest : list tmdb_movie) (movie_id : Z)
    (out : list recommendation) (s' : state) :
  Py.truthy (TMDB_API_KEY w) = true ->
  results (tmdb_search w (Py.quote title)) = Some (first :: rest) ->
  m_id first = Some movie_id ->
  get_recommendations_for_movie w (Some title) s = (Ok out, s') ->
  let rec_data := tmdb_recommendations w movie_id in
  let similar_data := tmdb_similar w movie_id in
  let fewer := (length (page_movies rec_data) <? 3)%nat in
  let pool := if fewer && truthy_list (results similar_data)
              then similar_data else rec_data in
  let chosen := take 5 (List.filter (keeps (genre_map_of (tmdb_genre_list w)))
                                    (take 10 (page_movies pool))) in
  issued s s' =
    TmdbSearch (Py.quote title) :: TmdbRecommendations movie_id ::
    (if fewer then [TmdbSimilar movie_id] else []) ++
    TmdbGenreList :: map (fun m => TmdbMovieDetails (m_id m)) chosen ++
    (if (length chosen <? 3)%nat then [TmdbDiscoverPopular] else []) /\
  (length (issued s s') <= 9)%nat.
Proof.
  intros Hkey Hsearch Hid Hrun rec_data similar_data fewer pool chosen.
  rewrite (recommendations_unfold _ _ _ _ _ _ Hkey Hsearch Hid) in Hrun.
  apply pipeline_inv in Hrun as (collected & s1 & Hgather & _ & Hshuffle & _).
  pose proof (gather_requests _ _ _ _ _ Hgather) as Hlog. cbv zeta in Hlog.
  fold rec_data similar_data fewer pool chosen in Hlog.
  pose proof (shuffle_loop_requests_nothing w (length collected - 1) collected s1) as Hquiet.
  unfold shuffle in Hshuffle. rewrite Hshuffle in Hquiet. cbn [snd] in Hquiet.
  assert (Hissued : issued s s' =
    TmdbSearch (Py.quote title) :: TmdbRecommendations movie_id ::
    (if fewer then [TmdbSimilar movie_id] else []) ++
    TmdbGenreList :: map (fun m => TmdbMovieDetails (m_id m)) chosen ++
    (if (length chosen <? 3)%nat then [TmdbDiscoverPopular] else [])).
  { apply issued_app. rewrite Hquiet, Hlog. cbn [asked ticked log].
    rewrite <- app_assoc. reflexivity. }
  split; [ exact Hissued |]. rewrite Hissued.
  assert (Hchosen : (length chosen <= 5)%nat).
  { subst chosen. rewrite length_take. apply Nat.le_min_l. }
  cbn [length]. rewrite length_app. cbn [length]. rewrite length_app, length_map.
  destruct fewer; destruct (length chosen <? 3)%nat eqn:Hfew; cbn [length];
    try (apply Nat.ltb_lt in Hfew); lia.
Qed.

Lemma gatherer_requests_witness :
  exists out s',
    get_recommendations_for_movie Demo.w1 (Some "Alien") init = (Ok out, s') /\
    issued init s' =
      [TmdbSearch "Alien"; TmdbRecommendations 348; TmdbGenreList;
       TmdbMovieDetails (Some 1091); TmdbMovieDetails (Some 790);
       TmdbDiscoverPopular].
Proof.
  assert (Hrun : exists out s',
            get_recommendations_for_movie Demo.w1 (Some "Alien") init = (Ok out, s'))
    by (eexists _, _; vm_compute; reflexivity).
  destruct Hrun as (out & s' & Hrun).
  exists out, s'. split; [ exact Hrun |].
  exact (proj1 (gatherer_requests Demo.w1 "Alien" init Demo.alien [] 348 out s'
                  eq_refl eq_refl eq_refl Hrun)).
Defined.

(** X8.  The list the gatherer returns is a rearrangement of the list
    it collected: the final cut to five entries drops nothing.  The
    collection draws no random number and the shuffle draws one per
    entry but the first. *)
Theorem gatherer_returns_what_it_collected (w : world) (title : string) (s : state)
    (first : tmdb_movie) (rest : list tmdb_movie) (movie_id : Z)
    (out : list recommendation) (s' : state) :
  Py.truthy (TMDB_API_KEY w) = true ->
  results (tmdb_search w (Py.quote title)) = Some (first :: rest) ->
  m_id first = Some movie_id ->
  get_recommendations_for_movie w (Some title) s = (Ok out, s') ->
  exists collected s1,
    gather w movie_id (asked (TmdbSearch (Py.quote title)) (ticked s)) = (Ok collected, s1) /\
    out ≡ₚ collected /\
    rand_reads s1 = rand_reads s /\
    rand_reads s' = (rand_reads s + (length collected - 1))%nat.
Proof.
  intros Hkey Hsearch Hid Hrun.
  rewrite (recommendations_unfold _ _ _ _ _ _ Hkey Hsearch Hid) in Hrun.
  apply pipeline_inv in Hrun as (collected & s1 & Hgather & _ & Hshuffle & Hperm).
  exists collected, s1. split; [ exact Hgather |]. split; [ exact Hperm |].
  pose proof (gather_draws_nothing w movie_id
                (asked (TmdbSearch (Py.quote title)) (ticked s))) as Hquiet.
  rewrite Hgather in Hquiet. cbn [snd asked ticked rand_reads] in Hquiet.
  split; [ exact Hquiet |].
  pose proof (shuffle_loop_draws w (length collected - 1) collected s1) as Hdraws.
  unfold shuffle in Hshuffle. rewrite Hshuffle in Hdraws. cbn [snd] in Hdraws.
  rewrite Hdraws, Hquiet. reflexivity.
Qed.

Lemma gatherer_returns_what_it_collected_witness :
  exists out s' collected s1,
    get_recommendations_for_movie Demo.w1 (Some "Alien") init = (Ok out, s') /\
    gather Demo.w1 348 (asked (TmdbSearch "Alien") (ticked init)) = (Ok collected, s1) /\
    out ≡ₚ collected.
Proof.
  assert (Hrun : exists out s',
            get_recommendations_for_movie Demo.w1 (Some "Alien") init = (Ok out, s'))
    by (eexists _, _; vm_compute; reflexivity).
  destruct Hrun as (out & s' & Hrun).
  destruct (gatherer_returns_what_it_collected Demo.w1 "Alien" init Demo.alien [] 348
              out s' eq_refl eq_refl eq_refl Hrun)
    as (collected & s1 & Hgather & Hperm & _).
  exists out, s', collected, s1. repeat split; assumption.
Defined.

Lemma fresh_titles_nodup added : forall seen,
  NoDup seen -> fresh_titles seen added -> NoDup (seen ++ map r_title added).
Proof.
  induction added as [|e rest IH]; intros seen Hseen Hfresh.
  - cbn. rewrite app_nil_r. exact Hseen.
  - destruct Hfresh as [Hnew Hrest]. cbn [map].
    rewrite (cons_middle (r_title e)), app_assoc. apply IH; [ | exact Hrest ].
    apply NoDup_app. split; [ exact Hseen |]. split; [ | apply NoDup_singleton ].
    intros t Hin Hin'. apply list_elem_of_singleton in Hin'. subst t. contradiction.
Qed.

(** X9.  The fallback stage keeps titles distinct: when no two entries
    collected so far share a title, no two entries of its result do.  The
    entries collected so far stay at the front, unchanged. *)
Theorem fallback_keeps_titles_distinct (w : world) (genre_map : gmap Z string)
    (recs : list recommendation) (s : state) (out : list recommendation) (s' : state) :
  NoDup (map r_title recs) ->
  fallback_stage w genre_map recs s = (Ok out, s') ->
  NoDup (map r_title out) /\ exists added, out = recs ++ added.
Proof.
  intros Hnodup Hrun. destruct (Nat.lt_ge_cases (length recs) 3) as [Hlen | Hlen].
  - rewrite fallback_stage_unfold in Hrun by exact Hlen.
    destruct (fallback_loop_ok _ _ _ _ _ _ _ Hrun)
      as (picked & added & -> & _ & _ & Hfresh & _).
    split; [ | exists added; reflexivity ].
    rewrite map_app. apply fresh_titles_nodup; assumption.
  - rewrite fallback_stage_skipped in Hrun by exact Hlen. injection Hrun as <- <-.
    split; [ exact Hnodup | exists []; rewrite app_nil_r; reflexivity ].
Qed.

Lemma fallback_keeps_titles_distinct_witness :
  exists out s',
    fallback_stage Demo.w1 (genre_map_of Demo.table) [] init = (Ok out, s') /\
    NoDup (map r_title out).
Proof.
  assert (Hrun : exists out s',
            fallback_stage Demo.w1 (genre_map_of Demo.table) [] init = (Ok out, s'))
    by (eexists _, _; vm_compute; reflexivity).
  destruct Hrun as (out & s' & Hrun).
  exists out, s'. split; [ exact Hrun |].
  exact (proj1 (fallback_keeps_titles_distinct Demo.w1 (genre_map_of Demo.table) []
                  init out s' (NoDup_nil_2 (A := option string)) Hrun)).
Defined.

(** X10.  The primary stage does not look at titles: a qualifying
    candidate that the candidate list gives twice is recommended twice. *)
Theorem primary_stage_keeps_repeats (w : world) (genre_map : gmap Z string)
    (movie : tmdb_movie) (rest : list tmdb_movie)
    (s : state) (out : list recommendation) (s' : state) :
  keeps genre_map movie = true ->
  primary_stage w genre_map (TmdbPage (Some (movie :: movie :: rest))) s = (Ok out, s') ->
  exists e1 e2 others,
    out = e1 :: e2 :: others /\
    r_title e1 = m_title movie /\
    r_title e2 = m_title movie.
Proof.
  intros Hkeeps Hrun. rewrite primary_stage_unfold in Hrun.
  destruct (primary_loop_ok _ _ _ _ _ _ _ Hrun) as (added & -> & Hall & _); [ cbn; lia |].
  unfold page_movies in Hall. cbn [results from_option id take List.filter length] in Hall.
  rewrite Hkeeps in Hall. cbn [take Nat.sub] in Hall.
  inversion Hall as [|? e1 ? added1 (t1 & k1 & Ht1 & He1) Hall1]; subst.
  inversion Hall1 as [|? e2 ? added2 (t2 & k2 & Ht2 & He2) Hall2]; subst.
  eexists _, _, added2. split; [ reflexivity |].
  cbn [r_title]. rewrite <- Ht1, <- Ht2. split; reflexivity.
Qed.

Lemma primary_stage_keeps_repeats_witness :
  exists e1 e2 others s',
    primary_stage Demo.w1 (genre_map_of Demo.table)
      (TmdbPage (Some [Demo.fog; Demo.fog; Demo.thing])) init
    = (Ok (e1 :: e2 :: others), s') /\
    r_title e1 = Some "The Fog" /\ r_title e2 = Some "The Fog".
Proof.
  assert (Hrun : exists out s',
            primary_stage Demo.w1 (genre_map_of Demo.table)
              (TmdbPage (Some [Demo.fog; Demo.fog; Demo.thing])) init = (Ok out, s'))
    by (eexists _, _; vm_compute; reflexivity).
  destruct Hrun as (out & s' & Hrun).
  destruct (primary_stage_keeps_repeats Demo.w1 (genre_map_of Demo.table) Demo.fog
              [Demo.thing] init out s' eq_refl Hrun)
    as (e1 & e2 & others & -> & H1 & H2).
  exists e1, e2, others, s'. repeat split; assumption.
Defined.

(** ** The release feed and its route *)

(** X11.  A negative limit does not empty the feed: the slice
    [results[:limit]] then drops the last [-limit] upstream results and
    returns the others, so the feed returns [max 0 (n + limit)] entries
    of the [n] upstream ones. *)
Theorem release_feed_negative_limit (w : world) (limit : Z) (s : state) :
  Py.truthy (TMDB_API_KEY w) = true ->
  limit < 0 ->
  let upstream := page_movies (tmdb_discover_recent w (today w - 30)) in
  exists out s',
    get_recent_horror_releases w limit s = (Ok out, s') /\
    out = map release_of (take (length upstream - Z.to_nat (- limit)) upstream) /\
    Z.of_nat (length out) = Z.max 0 (Z.of_nat (length upstream) + limit).
Proof.
  intros Hkey Hneg upstream. unfold get_recent_horror_releases. rewrite Hkey. cbn [negb].
  unfold randint. unfold bind, randbelow, fetch, ret, Py.slice_to.
  cbv beta iota zeta.
  assert (Hleb : (0 <=? limit) = false) by (apply Z.leb_gt; exact Hneg).
  assert (Hlen : forall l : list tmdb_movie,
            Z.of_nat (length (map release_of (take (length l - Z.to_nat (- limit)) l)))
            = Z.max 0 (Z.of_nat (length l) + limit)).
  { intros l. rewrite length_map, length_take. lia. }
  subst upstream. unfold page_movies.
  destruct (results (tmdb_discover_recent w (today w - 30))) as [[|m rs]|];
    cbn [from_option id]; rewrite ?Hleb;
    eexists _, _; (split; [ reflexivity |]);
    (split; [ reflexivity | first [ apply (Hlen []) | apply Hlen ] ]).
Qed.

Lemma release_feed_negative_limit_witness :
  exists out s',
    get_recent_horror_releases Demo.w2 (-1) init = (Ok out, s') /\
    Z.of_nat (length out) = 2.
Proof.
  destruct (release_feed_negative_limit Demo.w2 (-1) init eq_refl eq_refl)
    as (out & s' & Hrun & _ & Hlen).
  exists out, s'. split; [ exact Hrun | exact Hlen ].
Defined.

(** X12.  The [/recent-releases] route answers every outcome of the
    release feed and does not raise itself: an exception of the feed
    becomes a 500 answer with the text of that exception, a list that
    the feed returns is answered with a timestamp.  A missing TMDb
    credential is answered so, with the configuration error and before
    any request.  With the credential set and the discovery request
    answered by a page, the answer holds the releases of the first
    [limit] results of that page, and the discovery request was the only
    one.  A limit that is missing or not an integer counts as 5. *)
Theorem recent_releases_route (w : world) (limit : option Z) (s : state) :
  let feed := get_recent_horror_releases w (default 5 limit) s in
  (exists answer s',
     recent_releases w limit s = (Ok answer, s') /\
     match fst feed with
     | Raise e => answer = ServerError (StrOf e) /\ s' = snd feed
     | Ok releases =>
         answer = Releases releases (clock w (clock_reads (snd feed))) /\
         s' = ticked (snd feed)
     end) /\
  (Py.truthy (TMDB_API_KEY w) = false ->
   recent_releases w limit s
   = (Ok (ServerError (StrOf (Exception "TMDb API key is not set."))), s)) /\
  (Py.truthy (TMDB_API_KEY w) = true ->
   forall page,
     tmdb_discover_recent w (today w - 30) = page ->
     exists s',
       recent_releases w limit s
       = (Ok (Releases (map release_of (Py.slice_to (default 5 limit) (page_movies page)))
                       (clock w (clock_reads s))), s') /\
       issued s s' = [TmdbDiscoverRecent (today w - 30)]) /\
  recent_releases w None s = recent_releases w (Some 5) s.
Proof.
  intros feed. split; [ | split; [ | split; [ | reflexivity ] ] ].
  - subst feed. unfold recent_releases, try_except, bind.
    destruct (get_recent_horror_releases w (default 5 limit) s) as [[releases|e] s1];
      eexists _, _; (split; [ reflexivity |]); cbn [fst snd]; split; reflexivity.
  - intros Hkey. unfold recent_releases, try_except, bind, get_recent_horror_releases.
    rewrite Hkey. reflexivity.
  - intros Hkey page <-.
    unfold recent_releases, try_except, get_recent_horror_releases. rewrite Hkey.
    cbn [negb]. unfold randint. unfold bind, randbelow, fetch, ret, time_time, page_movies.
    cbv beta iota zeta.
    destruct (results (tmdb_discover_recent w (today w - 30))) as [[|m rs]|];
      cbn [from_option id];
      (eexists; split;
       [ first [ reflexivity
               | unfold Py.slice_to; destruct (0 <=? default 5 limit);
                 rewrite ?take_nil; reflexivity ]
       | apply issued_app; reflexivity ]).
Qed.

Lemma recent_releases_route_witness :
  recent_releases Demo.w_nokey (Some 2) init
  = (Ok (ServerError (StrOf (Exception "TMDb API key is not set."))), init) /\
  exists s',
    recent_releases Demo.w2 (Some 2) init
    = (Ok (Releases [ {| re_title := Some "Black Mass";
                         re_release_date := Some "2024-06-10";
                         re_poster := Some "https://image.tmdb.org/t/p/w500/p.jpg" |};
                      {| re_title := Some "Cold Cellar";
                         re_release_date := Some "2024-06-05";
                         re_poster := Some "https://image.tmdb.org/t/p/w500/p.jpg" |} ]
                    1718438400), s').
Proof.
  split.
  - destruct (recent_releases_route Demo.w_nokey (Some 2) init) as (_ & Hnokey & _).
    apply Hnokey. reflexivity.
  - destruct (recent_releases_route Demo.w2 (Some 2) init) as (_ & _ & Hpage & _).
    destruct (Hpage eq_refl _ eq_refl) as (s' & Hrun & _).
    exists s'. exact Hrun.
Defined.

(** ** The [/ask-oracle] route *)






Lemma answer_movie_inv w request_id md s answer s' :
  answer_movie w request_id md s = (Ok answer, s') -> exists p, answer = MovieAnswer p.
Proof.
  unfold answer_movie. cbv zeta. intros Hrun.
  apply bind_ok in Hrun as (recs & s1 & _ & Hrun).
  apply bind_ok in Hrun as (fact & s2 & _ & Hrun).
  apply bind_ok in Hrun as (q1 & s3 & _ & Hrun).
  apply bind_ok in Hrun as (q2 & s4 & _ & Hrun).
  apply bind_ok in Hrun as (ts & s5 & _ & Hrun).
  injection Hrun as <- _. eexists. reflexivity.
Qed.


Lemma answer_general_inv w request_id query s answer s' :
  answer_general w request_id query s = (Ok answer, s') ->
  (exists e, answer = ServerError e) \/ (exists a b c, answer = GeneralAnswer a b c).
Proof.
  unfold answer_general.
  destruct (Py.truthy (OPENAI_API_KEY w)); cbn [negb].
  - unfold try_except, bind, chat.
    destruct (chat_completion w "gpt-4-turbo-preview" HORROR_ORACLE_PROMPT query 300)
      as [e | [|[content|] choices]];
      intros H; injection H as <- _; eauto.
  - intros H. injection H as <- _. eauto.
Qed.

Lemma lookup_movie_returns w query s :
  exists found s', lookup_movie w query s = (Ok found, s').
Proof.
  unfold lookup_movie, try_except. cbv zeta.
  destruct (_ || _).
  - destruct (get_movie_details w _ s) as [[found|e] s1]; eexists _, _; reflexivity.
  - eexists _, _. reflexivity.
Qed.

(** X15.  The handler answers 400 for the empty query, before reading
    the clock or drawing, and for no other query: a non-empty query is
    answered with a movie, a general reply or a 500, or the handler is
    left by an exception of the gatherer. *)
Theorem bad_request_only_for_empty_query (w : world) (s : state) :
  ask_oracle w EmptyString s = (Ok (BadRequest "Query is required"), s) /\
  (forall query answer s',
     query <> EmptyString ->
     ask_oracle w query s = (Ok answer, s') ->
     (exists p, answer = MovieAnswer p) \/
     (exists e, answer = ServerError e) \/
     (exists summary request_id timestamp,
        answer = GeneralAnswer summary request_id timestamp)).
Proof.
  split; [ reflexivity |].
  intros query answer s' Hne Hrun.
  rewrite (ask_oracle_unfold w query s Hne) in Hrun.
  apply bind_ok in Hrun as ([md|] & s1 & _ & Hrun).
  - left. exact (answer_movie_inv _ _ _ _ _ _ Hrun).
  - right. exact (answer_general_inv _ _ _ _ _ _ Hrun).
Qed.

Lemma bad_request_only_for_empty_query_witness :
  exists summary request_id timestamp s',
    ask_oracle Demo.w1 "which director made the best slasher ever" init
    = (Ok (GeneralAnswer summary request_id timestamp), s').
Proof.
  assert (Hrun : exists answer s',
            ask_oracle Demo.w1 "which director made the best slasher ever" init
            = (Ok answer, s'))
    by (eexists _, _; vm_compute; reflexivity).
  destruct Hrun as (answer & s' & Hrun).
  destruct (bad_request_only_for_empty_query Demo.w1 init) as (_ & Hother).
  pose proof Hrun as Hrun'. vm_compute in Hrun'.
  assert (Hne : "which director made the best slasher ever" <> EmptyString)
    by discriminate.
  destruct (Hother _ _ _ Hne Hrun)
    as [(p & ->) | [(e & ->) | (summary & request_id & timestamp & ->)]];
    [ discriminate Hrun' | discriminate Hrun' |].
  exists summary, request_id, timestamp, s'. exact Hrun.
Defined.

(** X16.  A failure of the metadata lookup is never reported.  The
    lookup step always returns; with the OMDb or the TMDb credential
    missing it finds nothing and requests nothing, so every non-empty
    query, movie-like or not, is answered by the general responder. *)
Theorem lookup_failures_are_swallowed (w : world) (query : string) (s : state) :
  (exists found s', lookup_movie w query s = (Ok found, s')) /\
  (Py.truthy (OMDB_API_KEY w) = false \/ Py.truthy (TMDB_API_KEY w) = false ->
   lookup_movie w query s = (Ok None, s) /\
   (query <> EmptyString ->
    ask_oracle w query s
    = answer_general w (request_id_in w s) query (deciding s))).
Proof.
  split; [ apply lookup_movie_returns |].
  intros Hmissing.
  assert (Hlookup : forall s0, lookup_movie w query s0 = (Ok None, s0)).
  { intros s0. unfold lookup_movie, try_except. cbv zeta.
    destruct (_ || _); [ | reflexivity ].
    unfold get_movie_details.
    destruct Hmissing as [-> | ->]; [ | rewrite orb_true_r ]; reflexivity. }
  split; [ apply Hlookup |].
  intros Hne. rewrite (ask_oracle_unfold w query s Hne).
  unfold bind. rewrite Hlookup. reflexivity.
Qed.

Lemma lookup_failures_are_swallowed_witness :
  ask_oracle Demo.w_nokey "Alien" init
  = answer_general Demo.w_nokey (request_id_in Demo.w_nokey init) "Alien" (deciding init).
Proof.
  destruct (lookup_failures_are_swallowed Demo.w_nokey "Alien" init) as (_ & Hmissing).
  destruct (Hmissing ltac:(right; reflexivity)) as (_ & Hgeneral).
  apply Hgeneral. discriminate.
Defined.

(** X17.  A movie that only TMDb knows has no director: the summary of
    its record reads "Directed by None", and the director field of the
    answer is the empty string. *)
Theorem tmdb_record_has_no_director (w : world) (title : string) (s : state)
    (first : tmdb_movie) (rest : list tmdb_movie) :
  Py.truthy (OMDB_API_KEY w) = true ->
  Py.truthy (TMDB_API_KEY w) = true ->
  o_Response (omdb w (Py.quote title)) <> Some "True" ->
  results (tmdb_search w (Py.quote title)) = Some (first :: rest) ->
  exists md s',
    get_movie_details w title s = (Ok (Some md), s') /\
    Py.contains "Directed by None" (summary_of md) = true /\
    default (Some EmptyString) (md_director md) = Some EmptyString.
Proof.
  intros Homdb Htmdb Hmiss Hhit.
  rewrite (resolver_run w title s Homdb Htmdb Hmiss), Hhit. cbv zeta.
  eexists _, _. split; [ reflexivity |]. split; [ | reflexivity ].
  unfold summary_of. cbn [md_title md_year md_director md_plot].
  do 4 apply contains_skip. reflexivity.
Qed.

Lemma tmdb_record_has_no_director_witness :
  exists md s',
    get_movie_details Demo.w1 "Alien" init = (Ok (Some md), s') /\
    Py.contains "Directed by None" (summary_of md) = true.
Proof.
  destruct (tmdb_record_has_no_director Demo.w1 "Alien" init Demo.alien [])
    as (md & s' & Hrun & Hsummary & _);
    [ reflexivity | reflexivity | discriminate | reflexivity |].
  exists md, s'. split; [ exact Hrun | exact Hsummary ].
Defined.

(** ** The title taken from a query *)

Lemma rstrip_cons (c : ascii) (s : string) :
  Py.rstrip (String c s) =
  match Py.rstrip s with
  | EmptyString => if Py.isspace c then EmptyString else String c EmptyString
  | t => String c t
  end.
Proof. reflexivity. Qed.

Lemma rstrip_idem (s : string) : Py.rstrip (Py.rstrip s) = Py.rstrip s.
Proof.
  induction s as [|c s IH]; [ reflexivity |]. rewrite rstrip_cons.
  destruct (Py.rstrip s) as [|d u] eqn:Hu.
  - destruct (Py.isspace c) eqn:Hc; [ reflexivity |].
    rewrite rstrip_cons. cbn [Py.rstrip]. rewrite Hc. reflexivity.
  - rewrite rstrip_cons, IH. reflexivity.
Qed.

Lemma lstrip_head (s : string) :
  match Py.lstrip s with
  | EmptyString => True
  | String c _ => Py.isspace c = false
  end.
Proof.
  induction s as [|c s IH]; [ exact I |]. cbn [Py.lstrip].
  destruct (Py.isspace c) eqn:Hc; [ exact IH | exact Hc ].
Qed.

Lemma strip_fixed (s : string) : Py.strip (Py.strip s) = Py.strip s.
Proof.
  unfold Py.strip. pose proof (lstrip_head s) as Hhead.
  destruct (Py.lstrip s) as [|c t]; [ reflexivity |].
  assert (Hkeep : exists u, Py.rstrip (String c t) = String c u).
  { rewrite rstrip_cons. destruct (Py.rstrip t); [ rewrite Hhead |]; eexists; reflexivity. }
  destruct Hkeep as (u & Hu). rewrite Hu. cbn [Py.lstrip]. rewrite Hhead.
  rewrite <- Hu. apply rstrip_idem.
Qed.

Lemma length_lower (s : string) : String.length (Py.lower s) = String.length s.
Proof. induction s as [|c s IH]; [ reflexivity |]. cbn. rewrite IH. reflexivity. Qed.

Lemma drop_all (s : string) : Py.drop (String.length s) s = EmptyString.
Proof. induction s as [|c s IH]; [ reflexivity | exact IH ]. Qed.

Lemma prefix_selects_itself (l : string) :
  l ∈ prefixes ->
  find (fun prefix => Py.startswith prefix l) prefixes = Some l.
Proof.
  intros Hin.
  repeat (apply elem_of_cons in Hin as [-> | Hin]; [ reflexivity |]).
  inversion Hin.
Qed.

(** X18.  The title looked up for a query of ASCII text.  When none of
    the four prefixes starts the lower-cased query, it is the query
    itself, blanks included.  When one does, it is the rest of the query
    with the blanks at both ends removed, so stripping it again changes
    nothing.  A query that is nothing but one of the prefixes, in any
    case of letters, is looked up under the empty title. *)
Theorem title_extraction (query : string) :
  Py.isascii query = true ->
  let title := potential_title_loop query prefixes in
  let known := ["tell me about"; "what is"; "do you know"; "have you seen"] in
  let starts (prefix : string) := exists rest, Py.lower query = prefix +:+ rest in
  ((forall prefix, prefix ∈ known -> ~ starts prefix) -> title = query) /\
  (forall prefix, prefix ∈ known -> starts prefix ->
     title = Py.strip (Py.drop (String.length prefix) query) /\
     Py.strip title = title) /\
  (Py.lower query ∈ known -> title = EmptyString).
Proof.
  intros Hascii title known starts. subst title.
  destruct (potential_title_cases query) as (H1 & H2 & H3 & H4 & Hnone).
  split; [ | split ].
  - intros Hno.
    apply Hnone; apply Hno;
      repeat first [ apply list_elem_of_here | apply list_elem_of_further ].
  - intros prefix Hin Hstarts.
    assert (Ht : potential_title_loop query prefixes
                 = Py.strip (Py.drop (String.length prefix) query)).
    { repeat (apply elem_of_cons in Hin as [-> | Hin]; [ auto |]). inversion Hin. }
    split; [ exact Ht | rewrite Ht; apply strip_fixed ].
  - intros Hin. rewrite potential_title_first_prefix, (prefix_selects_itself _ Hin).
    rewrite length_lower, drop_all. reflexivity.
Qed.

Lemma title_extraction_witness :
  potential_title_loop "  Alien " prefixes = "  Alien " /\
  potential_title_loop "What is   The Fog  " prefixes = "The Fog" /\
  potential_title_loop "Do You Know" prefixes = EmptyString.
Proof.
  split; [ | split ].
  - apply (title_extraction "  Alien " eq_refl).
    intros prefix Hin (rest & H).
    repeat (apply elem_of_cons in Hin as [-> | Hin]; [ vm_compute in H; discriminate H |]).
    inversion Hin.
  - destruct (title_extraction "What is   The Fog  " eq_refl) as (_ & Hprefix & _).
    apply (Hprefix "what is").
    + apply list_elem_of_further, list_elem_of_here.
    + exists "   the fog  ". reflexivity.
  - apply (title_extraction "Do You Know" eq_refl).
    do 2 apply list_elem_of_further. apply list_elem_of_here.
Defined.

(** ** Genre names, years, prices *)

Lemma find_skip {A} (f : A -> bool) (l1 l2 : list A) :
  (forall x, x ∈ l1 -> f x = false) -> find f (l1 ++ l2) = find f l2.
Proof.
  induction l1 as [|x l1 IH]; intros Hnone; [ reflexivity |]. cbn [app find].
  rewrite (Hnone x) by apply list_elem_of_here.
  apply IH. intros y Hy. apply Hnone. apply list_elem_of_further. exact Hy.
Qed.

(** X19.  Resolving genre ids through the dictionary built from the
    genre table keeps their number and order; an id that the table does
    not list reads "Unknown", and for an id listed several times the
    last row gives the name. *)
Theorem genre_resolution (gd : genre_data) (ids : list Z) :
  let table := default [] (genres gd) in
  let names := genre_names (genre_map_of gd) ids in
  length names = length ids /\
  (forall k g_id',
     ids !! k = Some g_id' ->
     (forall g, g ∈ table -> g_id g <> g_id') ->
     names !! k = Some "Unknown") /\
  (forall k before g after,
     ids !! k = Some (g_id g) ->
     table = before ++ g :: after ->
     (forall g', g' ∈ after -> g_id g' <> g_id g) ->
     names !! k = Some (g_name g)).
Proof.
  intros table names. subst names. unfold genre_names, genre_map_of. fold table.
  split; [ apply length_map | split ].
  - intros k i Hk Habsent.
    change (map ?f ids) with (f <$> ids). rewrite list_lookup_fmap, Hk. cbn [fmap option_fmap option_map].
    rewrite genre_map_lookup.
    rewrite <- (app_nil_r (rev table)), find_skip; [ reflexivity |].
    intros g Hin. apply list_elem_of_In, in_rev, list_elem_of_In, Habsent in Hin.
    apply Z.eqb_neq. exact Hin.
  - intros k before g after Hk Htable Hlast.
    change (map ?f ids) with (f <$> ids). rewrite list_lookup_fmap, Hk. cbn [fmap option_fmap option_map].
    rewrite genre_map_lookup, Htable, rev_app_distr. cbn [rev].
    rewrite <- app_assoc, find_skip.
    + cbn [app find]. rewrite Z.eqb_refl. reflexivity.
    + intros g' Hin. apply list_elem_of_In, in_rev, list_elem_of_In, Hlast in Hin.
      apply Z.eqb_neq. exact Hin.
Qed.

Lemma genre_resolution_witness :
  let gd := GenreData (Some [Genre 27 "Horror"; Genre 53 "Thriller"; Genre 27 "Terror"]) in
  genre_names (genre_map_of gd) [27; 99] !! 0%nat = Some "Terror" /\
  genre_names (genre_map_of gd) [27; 99] !! 1%nat = Some "Unknown".
Proof.
  intros gd. destruct (genre_resolution gd [27; 99]) as (_ & Hunknown & Hlast).
  split.
  - apply (Hlast 0%nat [Genre 27 "Horror"; Genre 53 "Thriller"] (Genre 27 "Terror") []);
      [ reflexivity | reflexivity |].
    intros g' Hin. inversion Hin.
  - apply (Hunknown 1%nat 99); [ reflexivity |].
    intros g Hin.
    repeat (apply elem_of_cons in Hin as [-> | Hin]; [ discriminate |]).
    inversion Hin.
Defined.

Lemma append_empty_r (s : string) : s +:+ EmptyString = s.
Proof.
  induction s as [|c s IH]; [ reflexivity |].
  change (String c s +:+ EmptyString) with (String c (s +:+ EmptyString)).
  rewrite IH. reflexivity.
Qed.

Lemma append_snoc (cur : string) (c : ascii) (y : string) :
  (cur +:+ String c EmptyString) +:+ y = cur +:+ String c y.
Proof.
  induction cur as [|d cur IH]; [ reflexivity |].
  change ((String d cur +:+ String c EmptyString) +:+ y)
    with (String d ((cur +:+ String c EmptyString) +:+ y)).
  rewrite IH. reflexivity.
Qed.

(** The first piece of a split at dashes: what precedes the first dash. *)
Lemma split_dash_head (s : string) : forall (fuel : nat) (cur : string),
  (String.length s < fuel)%nat ->
  exists year rest,
    hd EmptyString (Py.split_go fuel "-" cur s) = cur +:+ year /\
    s = year +:+ rest /\
    Py.contains "-" year = false /\
    (rest = EmptyString \/ exists r, rest = String "-" r).
Proof.
  induction s as [|c s IH]; intros fuel cur Hfuel;
    (destruct fuel as [|fuel]; [ cbn in Hfuel; lia |]).
  - exists EmptyString, EmptyString. rewrite append_empty_r.
    repeat split; try reflexivity. left. reflexivity.
  - cbn [Py.split_go Py.startswith].
    destruct (Ascii.eqb "-" c) eqn:Hc.
    + apply Ascii.eqb_eq in Hc. subst c.
      exists EmptyString, (String "-" s). rewrite append_empty_r.
      repeat split; try reflexivity. right. exists s. reflexivity.
    + destruct (IH fuel (cur +:+ String c EmptyString)) as (year & rest & Hhd & -> & Hno & Hrest);
        [ cbn in Hfuel; lia |].
      exists (String c year), rest. rewrite Hhd, append_snoc.
      split; [ reflexivity |]. split; [ reflexivity |]. split; [ | exact Hrest ].
      cbn [Py.contains Py.startswith]. rewrite Hc, Hno. reflexivity.
Qed.

(** X20.  The year shown for a movie is the text of its release date
    before the first dash, the whole text when there is no dash; a
    release date that is missing or empty gives "N/A". *)
Theorem year_of_release_date :
  year_of None = "N/A" /\
  year_of (Some EmptyString) = "N/A" /\
  (forall release_date,
     release_date <> EmptyString ->
     exists rest,
       release_date = year_of (Some release_date) +:+ rest /\
       Py.contains "-" (year_of (Some release_date)) = false /\
       (rest = EmptyString \/ exists r, rest = String "-" r)).
Proof.
  split; [ reflexivity | split; [ reflexivity |] ].
  intros release_date Hne. unfold year_of.
  destruct release_date as [|c rd]; [ congruence |]. cbn [Py.truthy_str].
  unfold Py.split.
  destruct (split_dash_head (String c rd) (S (String.length (String c rd))) EmptyString)
    as (year & rest & Hhd & Heq & Hno & Hrest); [ lia |].
  exists rest. rewrite Hhd. cbn [String.append].
  change (EmptyString +:+ year) with year.
  split; [ exact Heq |]. split; [ exact Hno | exact Hrest ].
Qed.

Lemma year_of_release_date_witness :
  exists rest, "1979-05-25" = year_of (Some "1979-05-25") +:+ rest
               /\ year_of (Some "1979-05-25") = "1979".
Proof.
  destruct year_of_release_date as (_ & _ & Hyear).
  destruct (Hyear "1979-05-25") as (rest & Heq & _); [ discriminate |].
  exists rest. split; [ exact Heq | reflexivity ].
Defined.

(** X21.  The price comparison is a placeholder: an empty or missing
    id is answered 400, and every other id gets the same three texts;
    the 500 branch of the route is never taken, and the route makes no
    request, reads no clock and draws nothing. *)
Theorem price_compare_placeholder (imdb_id : string) (s : state) :
  price_compare imdb_id s =
  (Ok (if Py.truthy_str imdb_id
       then PriceAnswer {| pd_buy := "Buy this movie for $14.99!";
                           pd_rent := "Rent this movie for $4.99!";
                           pd_stream := "Stream this movie on a subscription service!" |}
       else PriceBadRequest "IMDb ID is required"),
   s).
Proof.
  unfold price_compare. destruct (Py.truthy_str imdb_id); reflexivity.
Qed.

